(** * Dryvo lesson scheduling: a shallow embedding of
      [server/api/blueprints/lessons.py] and the properties of its
      lesson lifecycle, topic submission and topic progress endpoints. *)

From Stdlib Require Import ZArith String Ascii List Bool Lia SpecFloat.
From stdpp Require Import base option list gmap strings.

Local Open Scope string_scope.
Local Open Scope Z_scope.
Local Set Warnings "-register-all,-clear-no-such-hyp".

(** ** Python values *)

(** Request bodies are decoded JSON.  [JNum] is a Python [int], [JFloat] a
    Python [float] (a binary float, with the infinities and NaN that the
    decoder lets through), [JStr] a [str] of characters in the range of [ascii]. *)
Inductive json : Type :=
| JNull
| JBool (b : bool)
| JNum (n : Z)
| JStr (s : string)
| JArr (xs : list json)
| JObj (kv : list (string * json))
| JFloat (f : spec_float).

(** Python truthiness of a decoded value. *)
Definition truthy (v : json) : bool :=
  match v with
  | JNull => false
  | JBool b => b
  | JNum n => negb (n =? 0)
  | JStr s => negb (String.eqb s "")
  | JArr xs => match xs with [] => false | _ => true end
  | JObj kv => match kv with [] => false | _ => true end
  | JFloat f => match f with S754_zero _ => false | _ => true end
  end.

(** [data.get(k, d)] on the decoded request body. *)
Definition dict_get_default (data : gmap string json) (k : string) (d : json) : json :=
  default d (data !! k).

(** [data.get(k)]: a missing key yields Python's [None], which is what a
    JSON [null] decodes to. *)
Definition dict_get (data : gmap string json) (k : string) : json :=
  dict_get_default data k JNull.

(** Truthiness of an optional ORM object: a row is truthy, [None] is not. *)
Definition some_row {A : Type} (o : option A) : bool :=
  match o with
  | Some _ => true
  | None => false
  end.

(** Exceptions that no handler of the blueprint catches. *)
Inductive exn : Type :=
| ValueError
| TypeError
| AttributeError
| UnboundLocalError
| OverflowError.

(** What a view function (or a helper it calls) ends with: a value, a
    [RouteError(message, code)], or an exception that escapes. *)
Inductive result (A : Type) : Type :=
| Ok (a : A)
| RouteError (msg : string) (code : Z)
| Raised (e : exn).
Arguments Ok {A} a.
Arguments RouteError {A} msg code.
Arguments Raised {A} e.

(** Modelled from the spec: [RouteError] comes from [server.error_handling],
    which is not part of the sources; a [RouteError(msg)] without a code
    carries the default status 400. *)
Definition RouteError_default {A : Type} (msg : string) : result A :=
  RouteError msg 400.

Definition is_ok {A : Type} (r : result A) : bool :=
  match r with
  | Ok _ => true
  | _ => false
  end.

(** ** [int] *)

(** [int(x)] for a [float]: the value cut off towards zero; an infinity
    raises [OverflowError] and NaN raises [ValueError]. *)
Definition int_of_float (f : spec_float) : exn + Z :=
  match f with
  | S754_zero _ => inr 0
  | S754_infinity _ => inl OverflowError
  | S754_nan => inl ValueError
  | S754_finite sign m e =>
      let magnitude :=
        if 0 <=? e then Z.pos m * 2 ^ e else Z.pos m / 2 ^ (- e) in
      inr (if sign then - magnitude else magnitude)
  end.

(** [f == i] for a [float] and an [int]: the two are compared by their exact
    values, so a float with a fraction, an infinity and NaN equal no
    [int]. *)
Definition float_eq_int (f : spec_float) (i : Z) : bool :=
  match f with
  | S754_zero _ => i =? 0
  | S754_infinity _ | S754_nan => false
  | S754_finite sign m e =>
      let signed n := if sign then - n else n in
      if 0 <=? e then i =? signed (Z.pos m * 2 ^ e)
      else (Z.pos m mod 2 ^ (- e) =? 0) && (i =? signed (Z.pos m / 2 ^ (- e)))
  end.

(** [int(v)] on a decoded value.  [int_of_str] is [int] on a [str], a
    builtin of the interpreter, with [None] for its [ValueError]; numbers
    and booleans convert, everything else is a [TypeError]. *)
Definition py_int (int_of_str : string -> option Z) (v : json) : exn + Z :=
  match v with
  | JStr s =>
      match int_of_str s with
      | Some n => inr n
      | None => inl ValueError
      end
  | JNum n => inr n
  | JBool b => inr (if b then 1 else 0)
  | JFloat f => int_of_float f
  | JNull | JArr _ | JObj _ => inl TypeError
  end.

(** ** Rows of the relational store *)

(** Timestamps are naive datetimes, compared as points on a line. *)
Abbreviation datetime := Z (only parsing).

Module PlaceType.
Inductive t : Type := meetup | dropoff.
End PlaceType.

Module UserRow.
Record t : Type := mk
  { id : Z;
    name : string;
    firebase_token : option string }.
End UserRow.

Module Teacher.
Record t : Type := mk
  { id : Z;
    user : UserRow.t;
    lesson_duration : Z }.
End Teacher.

Module Student.
Record t : Type := mk
  { id : Z;
    user : UserRow.t;
    teacher : Teacher.t }.
End Student.

(** The logged-in user with its optional roles ([current_user]). *)
Module User.
Record t : Type := mk
  { row : UserRow.t;
    teacher : option Teacher.t;
    student : option Student.t }.
End User.

Module Place.
Record t : Type := mk
  { id : Z;
    description : json;
    used_as : PlaceType.t;
    student_id : Z }.
End Place.

Module Topic.
Record t : Type := mk
  { id : Z;
    title : string;
    min_lesson_number : Z;
    max_lesson_number : Z }.
End Topic.

Module LessonTopic.
Record t : Type := mk
  { is_finished : bool;
    topic_id : Z }.
End LessonTopic.

(** A lesson row; its primary key is the key it is stored under. *)
Module Lesson.
Record t : Type := mk
  { date : datetime;
    duration : json;
    teacher : Teacher.t;
    student : option Student.t;
    meetup_place : option Place.t;
    dropoff_place : option Place.t;
    price : option Z;
    comments : json;
    is_approved : bool;
    deleted : bool;
    creator : UserRow.t;
    topics : list LessonTopic.t }.

Definition set_deleted (b : bool) (l : t) : t :=
  mk (date l) (duration l) (teacher l) (student l) (meetup_place l)
     (dropoff_place l) (price l) (comments l) (is_approved l) b
     (creator l) (topics l).

Definition set_is_approved (b : bool) (l : t) : t :=
  mk (date l) (duration l) (teacher l) (student l) (meetup_place l)
     (dropoff_place l) (price l) (comments l) b (deleted l)
     (creator l) (topics l).

Definition set_topics (ts : list LessonTopic.t) (l : t) : t :=
  mk (date l) (duration l) (teacher l) (student l) (meetup_place l)
     (dropoff_place l) (price l) (comments l) (is_approved l) (deleted l)
     (creator l) ts.
End Lesson.

(** The dict [get_lesson_data] returns. *)
Module LessonData.
Record t : Type := mk
  { date : datetime;
    meetup_place : option Place.t;
    dropoff_place : option Place.t;
    student : Student.t;
    teacher : Teacher.t;
    duration : json;
    price : option Z;
    comments : json;
    is_approved : bool }.
End LessonData.

(** The tables the blueprint reads and writes.  Lessons are updated by
    primary key, so that table is a finite map from keys to rows. *)
Record DB : Type := mkDB
  { lessons : gmap Z Lesson.t;
    students : list Student.t;
    topics_table : list Topic.t;
    places : list Place.t }.

Definition set_lessons (ls : gmap Z Lesson.t) (db : DB) : DB :=
  mkDB ls (students db) (topics_table db) (places db).

Definition set_places (ps : list Place.t) (db : DB) : DB :=
  mkDB (lessons db) (students db) (topics_table db) ps.

(** ** Queries *)

(** [query.filter(p).first()] on the lessons table: some stored row that
    satisfies [p], with its key. *)
Definition first_row (p : Z -> Lesson.t -> bool) (rows : gmap Z Lesson.t)
  : option (Z * Lesson.t) :=
  snd <$> list_find (fun kr => p (fst kr) (snd kr) = true) (map_to_list rows).

(** [current_user.teacher.lessons] and [current_user.student.lessons]: the
    lessons whose foreign key points at the role row. *)
Definition of_teacher (t : Teacher.t) (l : Lesson.t) : bool :=
  Teacher.id (Lesson.teacher l) =? Teacher.id t.

Definition of_student (s : Student.t) (l : Lesson.t) : bool :=
  match Lesson.student l with
  | Some s' => Student.id s' =? Student.id s
  | None => false
  end.

(** [lessons.filter_by(id=lesson_id).first()] on such a relationship: the
    row stored under the key, when it is one of [mine]. *)
Definition filter_by_id (mine : Lesson.t -> bool) (lesson_id : Z)
    (rows : gmap Z Lesson.t) : option Lesson.t :=
  match rows !! lesson_id with
  | Some l => if mine l then Some l else None
  | None => None
  end.

(** Modelled from the spec: [update] is inherited from a model base class
    that is not part of the sources; it assigns its keyword arguments to the
    row and commits.  [l] is the row stored under [i] after the
    assignment. *)
Definition update_row (i : Z) (l : Lesson.t) (db : DB) : DB :=
  set_lessons (<[i := l]> (lessons db)) db.

(** Modelled from the spec: [Student.get_by_id] is inherited from a model
    base class that is not part of the sources; it resolves a primary key
    to the student row when one exists. *)
Definition Student_get_by_id (db : DB) (key : json) : option Student.t :=
  match key with
  | JNum i => find (fun s => Student.id s =? i) (students db)
  | _ => None
  end.

(** Modelled from the spec: [Topic.get_by_id] / [Topic.query.filter_by(id=..)
    .first()] resolve a topic id to the topic row when one exists. *)
Definition Topic_get_by_id (db : DB) (i : Z) : option Topic.t :=
  find (fun t => Topic.id t =? i) (topics_table db).

(** [Lesson.get_by_id] / [Lesson.query.filter_by(id=..).first()]: the row
    stored under the key. *)
Definition Lesson_get_by_id (db : DB) (i : Z) : option Lesson.t :=
  lessons db !! i.

(** Primary keys are handed out by the store: larger than every key in use. *)
Definition fresh_id (ls : gmap Z Lesson.t) : Z :=
  1 + foldr Z.max 0 (elements (dom ls)).

(** ** Lazy sequences *)

(** [itertools.dropwhile] over a finite sequence and [next] on the result;
    [None] stands for [StopIteration]. *)
Fixpoint dropwhile {A : Type} (p : A -> bool) (xs : list A) : list A :=
  match xs with
  | [] => []
  | x :: xs' => if p x then dropwhile p xs' else xs
  end.

Definition next {A : Type} (it : list A) : option A := head it.

(** ** Notifications *)

Record Notification : Type := mkNotification
  { token : string;
    title : string }.

(** [if user.firebase_token: FCM.notify(token=..., title=..., body=...)] *)
Definition notify_user (u : UserRow.t) (ttl : string) : list Notification :=
  match UserRow.firebase_token u with
  | Some tok => if String.eqb tok "" then [] else [mkNotification tok ttl]
  | None => []
  end.

(** What a request leaves behind: the store, the notifications sent and
    the response. *)
Record Outcome (A : Type) : Type := mkOutcome
  { store : DB;
    sent : list Notification;
    response : result A }.
Arguments mkOutcome {A} store sent response.
Arguments store {A} o.
Arguments sent {A} o.
Arguments response {A} o.

(** ** The blueprint *)

Section Blueprint.

(** [datetime.strptime(s, DATE_FORMAT)], with [DATE_FORMAT] from
    [server.consts]; [None] stands for the [ValueError] raised on a string
    that does not match the format. *)
Variable strptime : string -> option datetime.

(** [Teacher.available_hours(date)]: the open slots of a teacher on the day
    of [date], as (slot start, label) pairs.  It reads the lessons stored
    and may read the clock. *)
Variable available_hours :
  DB -> datetime -> Teacher.t -> datetime -> list (datetime * string).

(** [Place.create_or_find(name, used_as, student)]: the place it resolves
    to and the places table it leaves behind. *)
Variable Place_create_or_find :
  list Place.t -> json -> PlaceType.t -> Student.t -> list Place.t * option Place.t.

(** [int(s)] on a [str], a builtin of the interpreter; [None] stands for
    the [ValueError] raised on a string that is no integer literal. *)
Variable int_of_str : string -> option Z.

(** [Lesson.update_only_changed_fields] with the keyword arguments of the
    dict, a method of the model base class: the row it leaves behind. *)
Variable update_only_changed_fields : LessonData.t -> Lesson.t -> Lesson.t.

(** [lesson.lesson_number], a property of the [Lesson] model. *)
Variable lesson_number : DB -> Z -> Lesson.t -> Z.

Definition handle_places (ps : list Place.t) (meetup_place dropoff_place : json)
    (student : option Student.t)
  : list Place.t * (option Place.t * option Place.t) :=
  match student with
  | None => (ps, (None, None))
  | Some s =>
      let '(ps1, m) := Place_create_or_find ps meetup_place PlaceType.meetup s in
      let '(ps2, d) := Place_create_or_find ps1 dropoff_place PlaceType.dropoff s in
      (ps2, (m, d))
  end.

(** [datetime.strptime(data["date"], DATE_FORMAT)] *)
Definition parse_date (v : json) : result datetime :=
  match v with
  | JStr s =>
      match strptime s with
      | Some d => Ok d
      | None => Raised ValueError
      end
  | _ => Raised TypeError
  end.

(** The request carries a date that lines 50-55 let through: the field is
    present and truthy, it parses to [date], and a request that edits no
    existing lesson does not lie in the past. *)
Definition date_accepted (now : datetime) (data : gmap string json)
    (lesson : option Lesson.t) (date : datetime) : Prop :=
  truthy (dict_get data "date") = true
  /\ parse_date (dict_get data "date") = Ok date
  /\ (lesson = None -> now <= date).

(** The locals that the role branch of [get_lesson_data] binds; [None] is
    a name that was never assigned. *)
Record Locals : Type := mkLocals
  { local_duration : option json;
    local_student : option Student.t;
    local_teacher : option Teacher.t }.

(** Lines 56-74: [if user.student: ... elif user.teacher: ...]. *)
Definition role_branch (db : DB) (now : datetime) (data : gmap string json)
    (user : User.t)
    (lesson : option Lesson.t) (date : datetime) : result Locals :=
  match User.student user with
  | Some s =>
      let duration := JNum (Teacher.lesson_duration (Student.teacher s)) in
      let hours :=
        dropwhile (fun hour_with_date => negb (fst hour_with_date =? date))
                  (available_hours db now (Student.teacher s) date) in
      let bound := mkLocals (Some duration) (Some s) (Some (Student.teacher s)) in
      match next hours with
      | Some _ => Ok bound
      | None =>
          if match lesson with
             | Some l => negb (date =? Lesson.date l)
             | None => false
             end
             || negb (some_row lesson)
          then RouteError_default "This hour is not available."
          else Ok bound
      end
  | None =>
      match User.teacher user with
      | Some t =>
          let duration :=
            dict_get_default data "duration" (JNum (Teacher.lesson_duration t)) in
          match Student_get_by_id db (dict_get data "student_id") with
          | Some s => Ok (mkLocals (Some duration) (Some s) (Some t))
          | None => RouteError_default "Student does not exist."
          end
      | None => Ok (mkLocals None None None)
      end
  end.

(** Lines 79-82: [int(data.get("price", ""))], with [ValueError] caught. *)
Definition parse_price (data : gmap string json) : result (option Z) :=
  match py_int int_of_str (dict_get_default data "price" (JStr "")) with
  | inr n => Ok (Some n)
  | inl ValueError => Ok None
  | inl e => Raised e
  end.

(** Lines 76-93: the places, the price and the dict that is returned.
    Reading a local that the role branch left unassigned raises
    [UnboundLocalError]; [student] is the first one read. *)
Definition lesson_dict (ps : list Place.t) (data : gmap string json) (user : User.t)
    (date : datetime) (locals : Locals) : list Place.t * result LessonData.t :=
  match local_student locals with
  | None => (ps, Raised UnboundLocalError)
  | Some student =>
      let '(ps', (meetup, dropoff)) :=
        handle_places ps (dict_get data "meetup_place")
                      (dict_get data "dropoff_place") (Some student) in
      match parse_price data with
      | Raised e => (ps', Raised e)
      | RouteError m c => (ps', RouteError m c)
      | Ok price =>
          match local_teacher locals, local_duration locals with
          | Some teacher, Some duration =>
              (ps', Ok (LessonData.mk date meetup dropoff student teacher
                          duration price (dict_get data "comments")
                          (some_row (User.teacher user))))
          | _, _ => (ps', Raised UnboundLocalError)
          end
      end
  end.

(** [get_lesson_data(data, user, lesson)] at time [now]: the places table
    it leaves behind and the dict it returns. *)
Definition get_lesson_data (db : DB) (now : datetime) (data : gmap string json)
    (user : User.t) (lesson : option Lesson.t)
  : list Place.t * result LessonData.t :=
  let ps := places db in
  if negb (truthy (dict_get data "date")) then
    (ps, RouteError_default "Date is not valid.")
  else
    match parse_date (dict_get data "date") with
    | Raised e => (ps, Raised e)
    | RouteError m c => (ps, RouteError m c)
    | Ok date =>
        if negb (some_row lesson) && (date <? now) then
          (ps, RouteError_default "Date is not valid.")
        else
          match role_branch db now data user lesson date with
          | Raised e => (ps, Raised e)
          | RouteError m c => (ps, RouteError m c)
          | Ok locals => lesson_dict ps data user date locals
          end
    end.

(** Modelled from the spec: [Lesson.create] is inherited from a model base
    class that is not part of the sources.  It stores a new row built from
    the keyword arguments, with the requester as creator, not deleted and
    without topics, under a key of its own. *)
Definition Lesson_create (db : DB) (creator : UserRow.t) (d : LessonData.t)
  : DB * (Z * Lesson.t) :=
  let i := fresh_id (lessons db) in
  let l :=
    Lesson.mk (LessonData.date d) (LessonData.duration d)
      (LessonData.teacher d) (Some (LessonData.student d))
      (LessonData.meetup_place d) (LessonData.dropoff_place d)
      (LessonData.price d) (LessonData.comments d) (LessonData.is_approved d)
      false creator [] in
  (set_lessons (<[i := l]> (lessons db)) db, (i, l)).

Definition same_user (u v : UserRow.t) : bool := UserRow.id u =? UserRow.id v.

(** [new_lesson()], the POST on the collection. *)
Definition new_lesson (db : DB) (now : datetime) (current_user : User.t)
    (data : gmap string json) : Outcome (Z * Lesson.t) :=
  if negb (truthy (dict_get data "date")) then
    mkOutcome db [] (RouteError_default "Please insert the date of the lesson.")
  else
    let '(ps, r) := get_lesson_data db now data current_user None in
    let db1 := set_places ps db in
    match r with
    | RouteError m c => mkOutcome db1 [] (RouteError m c)
    | Raised e => mkOutcome db1 [] (Raised e)
    | Ok d =>
        let '(db2, (i, lesson)) := Lesson_create db1 (User.row current_user) d in
        match Lesson.student lesson with
        | None => mkOutcome db2 [] (Raised AttributeError)
        | Some s =>
            let user_to_send_to :=
              if same_user (Lesson.creator lesson) (Teacher.user (Lesson.teacher lesson))
                 && some_row (Lesson.student lesson)
              then Student.user s
              else Teacher.user (Lesson.teacher lesson) in
            mkOutcome db2 (notify_user user_to_send_to "New Lesson!") (Ok (i, lesson))
        end
    end.

(** [try: current_user.teacher.lessons except AttributeError:
    current_user.student.lessons]; a user without a role lets the second
    [AttributeError] escape. *)
Definition user_lessons (current_user : User.t) : exn + (Lesson.t -> bool) :=
  match User.teacher current_user with
  | Some t => inr (of_teacher t)
  | None =>
      match User.student current_user with
      | Some s => inr (of_student s)
      | None => inl AttributeError
      end
  end.

(** [delete_lesson(lesson_id)] *)
Definition delete_lesson (db : DB) (current_user : User.t) (lesson_id : Z)
  : Outcome string :=
  match user_lessons current_user with
  | inl e => mkOutcome db [] (Raised e)
  | inr mine =>
      match filter_by_id mine lesson_id (lessons db) with
      | None => mkOutcome db [] (RouteError_default "Lesson does not exist.")
      | Some lesson0 =>
          let lesson := Lesson.set_deleted true lesson0 in
          let db1 := update_row lesson_id lesson db in
          if same_user (User.row current_user) (Teacher.user (Lesson.teacher lesson)) then
            match Lesson.student lesson with
            | None => mkOutcome db1 [] (Raised AttributeError)
            | Some s =>
                mkOutcome db1 (notify_user (Student.user s) "Lesson Deleted")
                          (Ok "Lesson deleted successfully.")
            end
          else
            mkOutcome db1
              (notify_user (Teacher.user (Lesson.teacher lesson)) "Lesson Deleted")
              (Ok "Lesson deleted successfully.")
      end
  end.

(** [update_lesson(lesson_id)] *)
Definition update_lesson (db : DB) (now : datetime) (current_user : User.t)
    (lesson_id : Z) (data : gmap string json) : Outcome Lesson.t :=
  match user_lessons current_user with
  | inl e => mkOutcome db [] (Raised e)
  | inr mine =>
      match filter_by_id mine lesson_id (lessons db) with
      | None => mkOutcome db [] (RouteError "Lesson does not exist" 404)
      | Some lesson0 =>
          let '(ps, r) := get_lesson_data db now data current_user (Some lesson0) in
          let db1 := set_places ps db in
          match r with
          | RouteError m c => mkOutcome db1 [] (RouteError m c)
          | Raised e => mkOutcome db1 [] (Raised e)
          | Ok d =>
              let lesson := update_only_changed_fields d lesson0 in
              let db2 := update_row lesson_id lesson db1 in
              match Lesson.student lesson with
              | None => mkOutcome db2 [] (Raised AttributeError)
              | Some s =>
                  let user_to_send_to :=
                    if same_user (User.row current_user)
                                 (Teacher.user (Lesson.teacher lesson))
                    then Student.user s
                    else Teacher.user (Lesson.teacher lesson) in
                  mkOutcome db2 (notify_user user_to_send_to "Lesson Updated")
                            (Ok lesson)
              end
          end
      end
  end.

(** [Lesson.query.filter(and_(Lesson.date == lesson.date,
    Lesson.id != lesson.id, Lesson.is_approved == True))] *)
Definition same_time (lesson_id : Z) (lesson : Lesson.t) (other_id : Z)
    (other : Lesson.t) : bool :=
  (Lesson.date other =? Lesson.date lesson)
  && negb (other_id =? lesson_id)
  && Lesson.is_approved other.

(** [approve_lesson(lesson_id)]; [teacher] is [current_user.teacher], which
    the [teacher_required] decorator has checked. *)
Definition approve_lesson (db : DB) (teacher : Teacher.t) (lesson_id : Z)
  : Outcome string :=
  match filter_by_id (of_teacher teacher) lesson_id (lessons db) with
  | None => mkOutcome db [] (RouteError "Lesson does not exist" 404)
  | Some lesson0 =>
      match first_row (same_time lesson_id lesson0) (lessons db) with
      | Some _ =>
          mkOutcome db [] (RouteError_default "There is another lesson at the same time.")
      | None =>
          let lesson := Lesson.set_is_approved true lesson0 in
          let db1 := update_row lesson_id lesson db in
          match Lesson.student lesson with
          | None => mkOutcome db1 [] (Raised AttributeError)
          | Some s =>
              mkOutcome db1 (notify_user (Student.user s) "Lesson Approved")
                        (Ok "Lesson approved.")
          end
      end
  end.

(** *** Topic submission *)

Definition FINISHED_KEY : string := "finished".

(** [i == v] for an [int] and a decoded value: numbers compare by value,
    [True] and [False] are 1 and 0, and nothing else equals an [int]. *)
Definition py_eq_int (i : Z) (v : json) : bool :=
  match v with
  | JNum j => i =? j
  | JBool b => i =? (if b then 1 else 0)
  | JFloat f => float_eq_int f i
  | JNull | JStr _ | JArr _ | JObj _ => false
  end.

(** Iterating over a decoded value: a list yields its items, a string its
    characters, a dict its keys; [None], numbers and booleans are not
    iterable. *)
Definition py_iter (v : json) : exn + list json :=
  match v with
  | JArr xs => inr xs
  | JStr s => inr (map (fun c => JStr (String c EmptyString)) (list_ascii_of_string s))
  | JObj kv => inr (map (fun p => JStr (fst p)) kv)
  | JNull | JNum _ | JBool _ | JFloat _ => inl TypeError
  end.

(** [topics.items()], defined on dicts only. *)
Definition py_items (v : json) : exn + list (string * json) :=
  match v with
  | JObj kv => inr kv
  | _ => inl AttributeError
  end.

(** What the two loops of [update_topics] carry: the associations of the
    lesson and [appended_ids], the list of the ids appended so far as the
    request gave them. *)
Record Appended : Type := mkAppended
  { lesson_topics : list LessonTopic.t;
    appended_ids : list json }.

(** One pass of the body of the inner loop for a [topic_id] that is no
    [int] (a string, a float, [null], ...): what [Topic.get_by_id] and the
    [topic_id] column make of such an id is not in the sources.  The pass
    ends the request with an error or leaves the loops a state to go on
    with. *)
Variable visit_other_id : DB -> string -> json -> Appended -> result Appended.

(** The inner loop, [for topic_id in topic_ids]. *)
Fixpoint append_topic_ids (db : DB) (key : string) (topic_ids : list json)
    (st : Appended) : result Appended :=
  match topic_ids with
  | [] => Ok st
  | topic_id :: rest =>
      match topic_id with
      | JNum i =>
          match Topic_get_by_id db i with
          | None => RouteError_default "Topic does not exist."
          | Some _ =>
              if existsb (py_eq_int i) (appended_ids st) then
                append_topic_ids db key rest st
              else
                let is_finished := String.eqb key FINISHED_KEY in
                append_topic_ids db key rest
                  (mkAppended
                     (lesson_topics st ++ [LessonTopic.mk is_finished i])
                     (appended_ids st ++ [JNum i]))
          end
      | _ =>
          match visit_other_id db key topic_id st with
          | Ok st' => append_topic_ids db key rest st'
          | RouteError m c => RouteError m c
          | Raised e => Raised e
          end
      end
  end.

(** The outer loop, [for key, topic_ids in data.get("topics").items()]. *)
Fixpoint append_buckets (db : DB) (items : list (string * json)) (st : Appended)
  : result Appended :=
  match items with
  | [] => Ok st
  | (key, topic_ids) :: rest =>
      match py_iter topic_ids with
      | inl e => Raised e
      | inr ids =>
          match append_topic_ids db key ids st with
          | Ok st' => append_buckets db rest st'
          | RouteError m c => RouteError m c
          | Raised e => Raised e
          end
      end
  end.

(** [update_topics(lesson_id)], behind [login_required] and
    [teacher_required].  The associations are appended to the session copy
    of the lesson and reach the store with [lesson.save()]; a request that
    raises never saves. *)
Definition update_topics (db : DB) (lesson_id : Z) (data : gmap string json)
  : Outcome Lesson.t :=
  match Lesson_get_by_id db lesson_id with
  | None => mkOutcome db [] (RouteError_default "Lesson does not exist.")
  | Some lesson =>
      if negb (some_row (Lesson.student lesson)) then
        mkOutcome db [] (RouteError_default "Lesson must have a student assigned.")
      else
        match py_items (dict_get data "topics") with
        | inl e => mkOutcome db [] (Raised e)
        | inr items =>
            match append_buckets db items (mkAppended (Lesson.topics lesson) []) with
            | RouteError m c => mkOutcome db [] (RouteError m c)
            | Raised e => mkOutcome db [] (Raised e)
            | Ok st =>
                let lesson' := Lesson.set_topics (lesson_topics st) lesson in
                mkOutcome (update_row lesson_id lesson' db) [] (Ok lesson')
            end
        end
  end.

(** *** Topic progress *)

(** [[lt.topic_id for lt in lesson.topics.filter_by(is_finished=b).all()]] *)
Definition topic_ids_with (b : bool) (l : Lesson.t) : list Z :=
  LessonTopic.topic_id
    <$> filter (fun lt => LessonTopic.is_finished lt = b) (Lesson.topics l).

(** Modelled from the spec: [Student.topics(is_finished)] is not part of the
    sources.  It is the set of topics that carry the given flag in some
    lesson of the student: "the student's topics already in progress" and
    "the student's topics already finished (globally, across all
    lessons)".  A topic row is identified by its primary key. *)
Definition Student_topics (db : DB) (s : Student.t) (is_finished : bool) : gset Z :=
  list_to_set
    (flat_map (fun kl => if of_student s (snd kl)
                         then topic_ids_with is_finished (snd kl) else [])
              (map_to_list (lessons db))).

(** Modelled from the spec: [Topic.for_lesson(n)] is not part of the
    sources.  It lists the "topics whose applicable-lesson-number range
    includes the target lesson number". *)
Definition Topic_for_lesson (db : DB) (n : Z) : list Z :=
  Topic.id
    <$> filter (fun t => Topic.min_lesson_number t <= n <= Topic.max_lesson_number t)
               (topics_table db).

(** Modelled from the spec: [Student.new_lesson_number] is not part of the
    sources; it is the "count of approved lessons + 1". *)
Definition new_lesson_number (db : DB) (s : Student.t) : Z :=
  Z.of_nat (length (filter (fun kl => of_student s (snd kl)
                                      && Lesson.is_approved (snd kl) = true)
                           (map_to_list (lessons db)))) + 1.

(** The response of [topics]: [available] holds the keys of the topics
    whose dicts are listed (a Python set has no order of its own). *)
Record TopicsResponse : Type := mkTopicsResponse
  { available : gset Z;
    progress : list Z;
    finished : list Z }.

(** [topics(lesson_id)] with the [student_id] query argument. *)
Definition topics (db : DB) (lesson_id : Z) (student_id : option Z)
  : result TopicsResponse :=
  let student :=
    match student_id with
    | Some k => find (fun s => Student.id s =? k) (students db)
    | None => None
    end in
  let target : result (Student.t * Z * option Lesson.t) :=
    if (lesson_id =? 0) && some_row student then
      match student with
      | Some s => Ok (s, new_lesson_number db s, None)
      | None => Raised AttributeError
      end
    else
      match Lesson_get_by_id db lesson_id with
      | None => RouteError "Lesson does not exist or not assigned." 404
      | Some lesson =>
          match Lesson.student lesson with
          | None => RouteError "Lesson does not exist or not assigned." 404
          | Some s => Ok (s, lesson_number db lesson_id lesson, Some lesson)
          end
      end in
  match target with
  | RouteError m c => RouteError m c
  | Raised e => Raised e
  | Ok (student, number, lesson) =>
      let topics_for_lesson : gset Z :=
        (Student_topics db student false ∪ list_to_set (Topic_for_lesson db number))
          ∖ Student_topics db student true in
      match lesson with
      | None => Ok (mkTopicsResponse topics_for_lesson [] [])
      | Some l =>
          let in_progress := topic_ids_with false l in
          let finished_in_this_lesson := topic_ids_with true l in
          (* a key without a topic row puts [None] into the set, and
             [None.to_dict()] raises *)
          if forallb (fun t => some_row (Topic_get_by_id db t)) finished_in_this_lesson
          then Ok (mkTopicsResponse
                     (topics_for_lesson ∪ list_to_set finished_in_this_lesson)
                     in_progress finished_in_this_lesson)
          else Raised AttributeError
      end
  end.

End Blueprint.

(** [lesson(lesson_id)], the GET on one lesson, behind [login_required].
    The tuple of the two user ids is built before the membership test, so a
    lesson without a student raises; the answer is the row ([to_dict]). *)
Definition lesson (db : DB) (current_user : User.t) (lesson_id : Z)
  : result Lesson.t :=
  match Lesson_get_by_id db lesson_id with
  | None => RouteError_default "Lesson does not exist."
  | Some l =>
      match Lesson.student l with
      | None => Raised AttributeError
      | Some s =>
          if negb ((UserRow.id (User.row current_user) =? UserRow.id (Student.user s))
                   || (UserRow.id (User.row current_user)
                       =? UserRow.id (Teacher.user (Lesson.teacher l))))
          then RouteError "You are not allowed to view this lesson." 401
          else Ok l
      end
  end.

(** The user is the student or the teacher of the lesson, by user id. *)
Definition party_of (user : User.t) (l : Lesson.t) : Prop :=
  exists s, Lesson.student l = Some s
            /\ (UserRow.id (User.row user) = UserRow.id (Student.user s)
                \/ UserRow.id (User.row user)
                   = UserRow.id (Teacher.user (Lesson.teacher l))).

(** ** Predicates of the specification *)

(** Another approved lesson, under a different key, at the date of [l]. *)
Definition conflicting (rows : gmap Z Lesson.t) (lesson_id : Z) (l : Lesson.t) : Prop :=
  exists k o, rows !! k = Some o /\ k <> lesson_id
              /\ Lesson.is_approved o = true /\ Lesson.date o = Lesson.date l.

(** At most one approved lesson occupies a date: two approved rows with the
    same date are the same row. *)
Definition one_approved_per_slot (rows : gmap Z Lesson.t) : Prop :=
  forall k1 k2 l1 l2,
    rows !! k1 = Some l1 -> rows !! k2 = Some l2 ->
    Lesson.is_approved l1 = true -> Lesson.is_approved l2 = true ->
    Lesson.date l1 = Lesson.date l2 -> k1 = k2.

(** A user acts as a student when the student role is set (the first test
    of the role branch), as a teacher when only the teacher role is. *)
Definition student_initiated (user : User.t) (s : Student.t) : Prop :=
  User.student user = Some s.

Definition teacher_initiated (user : User.t) (t : Teacher.t) : Prop :=
  User.student user = None /\ User.teacher user = Some t.

(** The lesson is one of those the requests of [user] may touch: a lesson
    of the teacher role when there is one, else of the student role. *)
Definition belongs_to (user : User.t) (l : Lesson.t) : Prop :=
  match User.teacher user, User.student user with
  | Some t, _ => of_teacher t l = true
  | None, Some s => of_student s l = true
  | None, None => False
  end.

(** A topic submission that maps status keys to lists of topic ids, as the
    decoded request body holds it. *)
Definition submission (buckets : list (string * list Z)) : json :=
  JObj ((fun b => (fst b, JArr (JNum <$> snd b))) <$> buckets).

(** The submitted ids in the order the loops visit them, each with the key
    of its bucket. *)
Definition submitted (buckets : list (string * list Z)) : list (string * Z) :=
  flat_map (fun b => pair (fst b) <$> snd b) buckets.

(** One entry per distinct id: an id stays where it occurs first and its
    later occurrences are dropped. *)
Fixpoint first_occurrences (xs : list (string * Z)) : list (string * Z) :=
  match xs with
  | [] => []
  | x :: rest => x :: filter (fun y => snd y <> snd x) (first_occurrences rest)
  end.

(** The association that a visit of [(key, topic_id)] appends. *)
Definition association (x : string * Z) : LessonTopic.t :=
  LessonTopic.mk (String.eqb (fst x) FINISHED_KEY) (snd x).

(** The two loops of [update_topics] run as one loop over [submitted]. *)
Fixpoint append_submitted (db : DB) (xs : list (string * Z)) (st : Appended)
  : result Appended :=
  match xs with
  | [] => Ok st
  | (key, i) :: rest =>
      match Topic_get_by_id db i with
      | None => RouteError_default "Topic does not exist."
      | Some _ =>
          if existsb (py_eq_int i) (appended_ids st) then append_submitted db rest st
          else append_submitted db rest
                 (mkAppended (lesson_topics st ++ [association (key, i)])
                             (appended_ids st ++ [JNum i]))
      end
  end.

(** ** A small driving school *)

(** One teacher, one student of hers and a user without a role; times are
    written as hours and minutes, [900] for 09:00. *)
Definition tamar_row : UserRow.t := UserRow.mk 1 "Tamar" (Some "token-tamar").
Definition shai_row : UserRow.t := UserRow.mk 2 "Shai" (Some "token-shai").
Definition guest_row : UserRow.t := UserRow.mk 3 "Guest" None.

Definition tamar : Teacher.t := Teacher.mk 10 tamar_row 40.
Definition shai : Student.t := Student.mk 20 shai_row tamar.

Definition as_teacher : User.t := User.mk tamar_row (Some tamar) None.
Definition as_student : User.t := User.mk shai_row None (Some shai).
Definition as_guest : User.t := User.mk guest_row None None.

Definition junctions : Topic.t := Topic.mk 7 "Junctions" 1 5.

Definition lesson_at (date : datetime) (approved : bool)
    (ts : list LessonTopic.t) : Lesson.t :=
  Lesson.mk date (JNum 40) tamar (Some shai) None None None JNull approved false
            tamar_row ts.

(** An approved lesson at 09:00 under key 1. *)
Definition school : DB :=
  mkDB {[ 1 := lesson_at 900 true [] ]} [shai] [junctions] [].

(** The same, with a pending lesson at 09:00 under key 2. *)
Definition school_pending : DB :=
  mkDB (<[ 2 := lesson_at 900 false [] ]> {[ 1 := lesson_at 900 true [] ]})
       [shai] [junctions] [].

(** Two lessons of the student, each with the topic [junctions] finished. *)
Definition school_topics : DB :=
  mkDB (<[ 2 := lesson_at 1000 true [LessonTopic.mk true 7] ]>
          {[ 1 := lesson_at 900 true [LessonTopic.mk true 7] ]})
       [shai] [junctions] [].

(** A date format that knows three times of the day. *)
Definition sample_strptime (s : string) : option datetime :=
  if String.eqb s "01:00" then Some 100
  else if String.eqb s "09:00" then Some 900
  else if String.eqb s "11:00" then Some 1100
  else None.

(** A teacher whose only open slot is 10:00. *)
Definition sample_hours (db : DB) (now : datetime) (t : Teacher.t) (date : datetime)
  : list (datetime * string) :=
  [(1000, "10:00")].

(** A teacher with open slots at 09:00 and 11:00. *)
Definition morning_hours (db : DB) (now : datetime) (t : Teacher.t) (date : datetime)
  : list (datetime * string) :=
  [(900, "09:00"); (1100, "11:00")].

(** A place resolver that knows no place. *)
Definition sample_places (ps : list Place.t) (name : json) (used_as : PlaceType.t)
    (s : Student.t) : list Place.t * option Place.t :=
  (ps, None).

Definition sample_number (db : DB) (lesson_id : Z) (l : Lesson.t) : Z := 1.

(** An [int] that reads two prices and rejects every other string. *)
Definition sample_int (s : string) : option Z :=
  if String.eqb s "150" then Some 150
  else if String.eqb s "200" then Some 200
  else None.

(** An update that assigns every keyword argument to the row. *)
Definition sample_update (d : LessonData.t) (l : Lesson.t) : Lesson.t :=
  Lesson.mk (LessonData.date d) (LessonData.duration d)
    (LessonData.teacher d) (Some (LessonData.student d))
    (LessonData.meetup_place d) (LessonData.dropoff_place d)
    (LessonData.price d) (LessonData.comments d) (LessonData.is_approved d)
    (Lesson.deleted l) (Lesson.creator l) (Lesson.topics l).

(** A loop body that takes every id that is no [int] for an unknown
    topic. *)
Definition sample_other_id (db : DB) (key : string) (topic_id : json)
    (st : Appended) : result Appended :=
  RouteError_default "Topic does not exist.".

(** Requests: a lesson at [date] for the student of key [student_id]. *)
Definition lesson_request (date : string) (student_id : Z) : gmap string json :=
  {[ "date" := JStr date; "student_id" := JNum student_id ]}.

Definition lesson_request_price (date : string) (student_id : Z) (price : json)
  : gmap string json :=
  <[ "price" := price ]> (lesson_request date student_id).

Definition topics_request (buckets : list (string * list Z)) : gmap string json :=
  {[ "topics" := submission buckets ]}.

(** A request of a student that names another student and a duration. *)
Definition overreaching_request : gmap string json :=
  <[ "duration" := JNum 90 ]> (lesson_request "11:00" 99).

(** * Properties *)

(** ** Queries and keys *)

Lemma first_row_None (p : Z -> Lesson.t -> bool) (rows : gmap Z Lesson.t) :
  first_row p rows = None <-> forall k l, rows !! k = Some l -> p k l = false.
Proof.
  unfold first_row. rewrite fmap_None, list_find_None, Forall_forall. split.
  - intros H k l Hkl. apply not_true_is_false.
    apply (H (k, l)). by apply elem_of_map_to_list.
  - intros H [k l] Hin%elem_of_map_to_list. simpl. rewrite (H k l Hin). discriminate.
Qed.

Lemma first_row_Some (p : Z -> Lesson.t -> bool) (rows : gmap Z Lesson.t) k l :
  first_row p rows = Some (k, l) -> rows !! k = Some l /\ p k l = true.
Proof.
  unfold first_row. intros H. apply fmap_Some in H as [[i [k' l']] [H E]].
  simpl in E. injection E as -> ->.
  apply list_find_Some in H as (Hi & Hp & _). split; [|exact Hp].
  apply elem_of_map_to_list. eapply list_elem_of_lookup_2. exact Hi.
Qed.

Lemma first_row_is_Some (p : Z -> Lesson.t -> bool) (rows : gmap Z Lesson.t) k l :
  rows !! k = Some l -> p k l = true -> is_Some (first_row p rows).
Proof.
  intros Hkl Hp. destruct (first_row p rows) eqn:E; [eauto|].
  rewrite first_row_None in E. rewrite (E k l Hkl) in Hp. discriminate.
Qed.

Lemma foldr_max_ge (xs : list Z) k : k ∈ xs -> k <= foldr Z.max 0 xs.
Proof.
  induction xs as [|x xs IH]; intros Hin.
  - by apply elem_of_nil in Hin.
  - apply elem_of_cons in Hin as [->|Hin]; simpl; [lia|].
    specialize (IH Hin). lia.
Qed.

Lemma fresh_id_above (rows : gmap Z Lesson.t) k :
  is_Some (rows !! k) -> k < fresh_id rows.
Proof.
  intros Hk. unfold fresh_id.
  assert (k <= foldr Z.max 0 (elements (dom rows))); [|lia].
  apply foldr_max_ge. by apply elem_of_elements, elem_of_dom.
Qed.

Lemma fresh_id_fresh (rows : gmap Z Lesson.t) : rows !! fresh_id rows = None.
Proof.
  destruct (rows !! fresh_id rows) eqn:E; [|done].
  assert (fresh_id rows < fresh_id rows); [|lia].
  apply fresh_id_above. eauto.
Qed.

Lemma filter_by_id_Some mine i rows l :
  filter_by_id mine i rows = Some l <-> rows !! i = Some l /\ mine l = true.
Proof.
  unfold filter_by_id. destruct (rows !! i) as [l'|].
  - destruct (mine l') eqn:E; split.
    + intros [= ->]. done.
    + intros [[= ->] _]. done.
    + discriminate.
    + intros [[= ->] Hm]. congruence.
  - split; [discriminate|]. intros [? _]. discriminate.
Qed.

Lemma filter_by_id_None mine i rows :
  filter_by_id mine i rows = None <->
  forall l, rows !! i = Some l -> mine l = false.
Proof.
  unfold filter_by_id. destruct (rows !! i) as [l'|].
  - destruct (mine l') eqn:E; split.
    + discriminate.
    + intros H. specialize (H l' eq_refl). congruence.
    + intros _ l [= ->]. done.
    + done.
  - split; [|done]. intros _ l. discriminate.
Qed.

Lemma belongs_to_user_lessons user l :
  belongs_to user l -> exists mine, user_lessons user = inr mine /\ mine l = true.
Proof.
  unfold belongs_to, user_lessons.
  destruct (User.teacher user) as [t|]; [eauto|].
  destruct (User.student user) as [s|]; [eauto|done].
Qed.

(** ** Approval *)

Lemma same_time_true lesson_id l k o :
  same_time lesson_id l k o = true <->
  k <> lesson_id /\ Lesson.is_approved o = true /\ Lesson.date o = Lesson.date l.
Proof.
  unfold same_time. rewrite !andb_true_iff, negb_true_iff, Z.eqb_eq, Z.eqb_neq.
  tauto.
Qed.

Lemma same_time_query rows lesson_id l :
  is_Some (first_row (same_time lesson_id l) rows) <-> conflicting rows lesson_id l.
Proof.
  split.
  - intros [[k o] H]. apply first_row_Some in H as [Hk Hp].
    apply same_time_true in Hp. exists k, o. tauto.
  - intros (k & o & Hk & Hp). eapply first_row_is_Some; [exact Hk|].
    by apply same_time_true.
Qed.

(** C2: [approve_lesson] fails with "Lesson does not exist" when the key is
    not a lesson of the teacher; for a lesson of the teacher it fails with
    "There is another lesson at the same time." when some approved lesson
    under another key has the same date; otherwise it stores the lesson with
    [is_approved = true].  Every failure leaves the store as it was. *)
Theorem approve_lesson_spec (db : DB) (teacher : Teacher.t) (lesson_id : Z) :
  ((forall l, lessons db !! lesson_id = Some l -> of_teacher teacher l = false) ->
   approve_lesson db teacher lesson_id
   = mkOutcome db [] (RouteError "Lesson does not exist" 404))
  /\ (forall l,
        lessons db !! lesson_id = Some l -> of_teacher teacher l = true ->
        (conflicting (lessons db) lesson_id l ->
         approve_lesson db teacher lesson_id
         = mkOutcome db [] (RouteError "There is another lesson at the same time." 400))
        /\ (~ conflicting (lessons db) lesson_id l ->
            let db' := store (approve_lesson db teacher lesson_id) in
            db' = update_row lesson_id (Lesson.set_is_approved true l) db
            /\ (exists l', lessons db' !! lesson_id = Some l'
                           /\ Lesson.is_approved l' = true)
            /\ (is_Some (Lesson.student l) ->
                response (approve_lesson db teacher lesson_id) = Ok "Lesson approved."))).
Proof.
  split.
  - intros Hnone. unfold approve_lesson.
    by rewrite (proj2 (filter_by_id_None _ _ _) Hnone).
  - intros l Hl Hmine. unfold approve_lesson.
    rewrite (proj2 (filter_by_id_Some _ _ _ _) (conj Hl Hmine)).
    split.
    + intros Hc. apply same_time_query in Hc as [kr Hc]. by rewrite Hc.
    + intros Hc. destruct (first_row _ _) eqn:E.
      { exfalso. apply Hc, same_time_query. eauto. }
      simpl. destruct (Lesson.student l) as [s|] eqn:Es; simpl.
      * split; [done|]. split; [|done]. eexists. split; [apply lookup_insert_eq|done].
      * split; [done|]. split; [|by intros [? ?]].
        eexists. split; [apply lookup_insert_eq|done].
Qed.

(** ** The slot invariant *)

Lemma approve_lesson_store (db : DB) (teacher : Teacher.t) (lesson_id : Z) :
  store (approve_lesson db teacher lesson_id) = db
  \/ exists l, lessons db !! lesson_id = Some l
               /\ ~ conflicting (lessons db) lesson_id l
               /\ store (approve_lesson db teacher lesson_id)
                  = update_row lesson_id (Lesson.set_is_approved true l) db.
Proof.
  unfold approve_lesson.
  destruct (filter_by_id _ _ _) as [l|] eqn:E; [|by left].
  apply filter_by_id_Some in E as [Hl _].
  destruct (first_row _ _) eqn:Eq; [by left|].
  right. exists l. split; [done|]. split.
  - intros Hc%same_time_query. rewrite Eq in Hc. by destruct Hc.
  - by destruct (Lesson.student _).
Qed.

(** X19: approving keeps the invariant: the conflict query has just found
    the slot free of other approved lessons. *)
Lemma approve_lesson_preserves (db : DB) (teacher : Teacher.t) (lesson_id : Z) :
  one_approved_per_slot (lessons db) ->
  one_approved_per_slot (lessons (store (approve_lesson db teacher lesson_id))).
Proof.
  intros Hinv.
  destruct (approve_lesson_store db teacher lesson_id) as [->|(l & Hl & Hfree & ->)];
    [done|].
  unfold update_row, set_lessons; simpl.
  intros k1 k2 l1 l2 H1 H2 A1 A2 Hd.
  rewrite lookup_insert in H1, H2.
  destruct (decide (lesson_id = k1)) as [<-|N1], (decide (lesson_id = k2)) as [<-|N2];
    simplify_eq; try done.
  - destruct (decide (k2 = lesson_id)) as [|N]; [done|].
    exfalso. apply Hfree. exists k2, l2. simpl in Hd. done.
  - destruct (decide (k1 = lesson_id)) as [|N]; [done|].
    exfalso. apply Hfree. exists k1, l1. simpl in Hd. done.
  - eapply Hinv; eauto.
Qed.

Lemma delete_lesson_store (db : DB) (current_user : User.t) (lesson_id : Z) :
  store (delete_lesson db current_user lesson_id) = db
  \/ exists mine l, user_lessons current_user = inr mine
                    /\ lessons db !! lesson_id = Some l /\ mine l = true
                    /\ store (delete_lesson db current_user lesson_id)
                       = update_row lesson_id (Lesson.set_deleted true l) db.
Proof.
  unfold delete_lesson.
  destruct (user_lessons current_user) as [e|mine] eqn:Eu; [by left|].
  destruct (filter_by_id _ _ _) as [l|] eqn:E; [|by left].
  apply filter_by_id_Some in E as [Hl Hm].
  right. exists mine, l. repeat split; try done.
  destruct (same_user _ _); [destruct (Lesson.student _)|]; done.
Qed.

(** X20: deleting keeps the invariant: neither the date nor the approval of
    any row changes. *)
Lemma delete_lesson_preserves (db : DB) (current_user : User.t) (lesson_id : Z) :
  one_approved_per_slot (lessons db) ->
  one_approved_per_slot (lessons (store (delete_lesson db current_user lesson_id))).
Proof.
  intros Hinv.
  destruct (delete_lesson_store db current_user lesson_id)
    as [->|(mine & l & _ & Hl & _ & ->)]; [done|].
  unfold update_row, set_lessons; simpl.
  intros k1 k2 l1 l2 H1 H2 A1 A2 Hd.
  rewrite lookup_insert in H1, H2.
  destruct (decide (lesson_id = k1)) as [<-|N1], (decide (lesson_id = k2)) as [<-|N2];
    simplify_eq; try done; eapply Hinv; eauto.
Qed.

(** ** Lesson data *)

Section LessonDataFacts.

Variable strptime : string -> option datetime.
Variable available_hours :
  DB -> datetime -> Teacher.t -> datetime -> list (datetime * string).
Variable Place_create_or_find :
  list Place.t -> json -> PlaceType.t -> Student.t -> list Place.t * option Place.t.
Variable int_of_str : string -> option Z.
Variable update_only_changed_fields : LessonData.t -> Lesson.t -> Lesson.t.


(** Past the date validation, the result is that of the role branch
    followed by the assembly of the dict. *)
Lemma get_lesson_data_accepted db now data user lesson date :
  date_accepted strptime now data lesson date ->
  get_lesson_data strptime available_hours Place_create_or_find int_of_str
                  db now data user lesson
  = match role_branch available_hours db now data user lesson date with
    | Ok locals =>
        lesson_dict Place_create_or_find int_of_str (places db) data user date locals
    | RouteError m c => (places db, RouteError m c)
    | Raised e => (places db, Raised e)
    end.
Proof.
  intros (Ht & Hp & Hnow). unfold get_lesson_data. rewrite Ht, Hp. simpl.
  destruct lesson as [l|]; simpl.
  - by destruct (role_branch available_hours _ _ _ _ _ _).
  - specialize (Hnow eq_refl). apply Z.ltb_ge in Hnow. rewrite Hnow.
    by destruct (role_branch available_hours _ _ _ _ _ _).
Qed.

Lemma parse_price_no_route_error data m c : parse_price int_of_str data <> RouteError m c.
Proof.
  unfold parse_price. destruct (py_int _) as [[]|]; discriminate.
Qed.

(** The dict is assembled from locals that are all bound. *)
Lemma lesson_dict_bound ps data user date duration s t :
  lesson_dict Place_create_or_find int_of_str ps data user date
              (mkLocals (Some duration) (Some s) (Some t))
  = let ps' := fst (handle_places Place_create_or_find ps (dict_get data "meetup_place")
                      (dict_get data "dropoff_place") (Some s)) in
    let md := snd (handle_places Place_create_or_find ps (dict_get data "meetup_place")
                     (dict_get data "dropoff_place") (Some s)) in
    match parse_price int_of_str data with
    | Ok price =>
        (ps', Ok (LessonData.mk date (fst md) (snd md) s t duration price
                    (dict_get data "comments") (some_row (User.teacher user))))
    | RouteError m c => (ps', RouteError m c)
    | Raised e => (ps', Raised e)
    end.
Proof.
  unfold lesson_dict. cbn [local_student local_teacher local_duration].
  destruct (handle_places _ _ _ _ _) as [ps' [m d]]. cbn [fst snd].
  destruct (parse_price int_of_str data); reflexivity.
Qed.

Lemma lesson_dict_bound_result ps data user date duration s t :
  let r := snd (lesson_dict Place_create_or_find int_of_str ps data user date
                            (mkLocals (Some duration) (Some s) (Some t))) in
  (forall price, parse_price int_of_str data = Ok price ->
     exists d, r = Ok d
               /\ LessonData.date d = date /\ LessonData.student d = s
               /\ LessonData.teacher d = t /\ LessonData.duration d = duration
               /\ LessonData.price d = price
               /\ LessonData.is_approved d = some_row (User.teacher user))
  /\ (forall d, r = Ok d ->
        LessonData.date d = date /\ LessonData.student d = s
        /\ LessonData.teacher d = t /\ LessonData.duration d = duration
        /\ LessonData.is_approved d = some_row (User.teacher user))
  /\ (forall m c, r <> RouteError m c)
  /\ r <> Raised UnboundLocalError.
Proof.
  rewrite lesson_dict_bound. cbv zeta.
  pose proof (parse_price_no_route_error data) as Hne.
  assert (parse_price int_of_str data <> Raised UnboundLocalError) as Hnu.
  { unfold parse_price. destruct (py_int _ _) as [e|] eqn:E; [|discriminate].
    destruct e; try discriminate.
    unfold py_int in E.
    destruct (dict_get_default _ _ _) as [| | |str| | |[]]; try discriminate.
    destruct (int_of_str str); discriminate. }
  destruct (parse_price int_of_str data) as [price|m c|e]; simpl.
  - split; [intros ? [= <-]; eexists; split; [reflexivity|done]|].
    split; [intros d [= <-]; done|]. split; [discriminate|discriminate].
  - by destruct (Hne m c).
  - split; [discriminate|]. split; [discriminate|]. split; [discriminate|].
    congruence.
Qed.

Lemma lesson_dict_no_route_error ps data user date locals m c :
  snd (lesson_dict Place_create_or_find int_of_str ps data user date locals)
  <> RouteError m c.
Proof.
  unfold lesson_dict. destruct (local_student locals); [|discriminate].
  destruct (handle_places _ _ _ _ _) as [ps' [me dr]].
  pose proof (parse_price_no_route_error data) as Hne.
  destruct (parse_price int_of_str data) as [price|m' c'|e]; simpl.
  - destruct (local_teacher locals), (local_duration locals); discriminate.
  - by destruct (Hne m' c').
  - discriminate.
Qed.

(** [next(dropwhile(...))] raises [StopIteration] exactly when no slot
    starts at [date]. *)
Lemma next_dropwhile_None (hours : list (datetime * string)) date :
  next (dropwhile (fun h => negb (fst h =? date)) hours) = None
  <-> forall h, h ∈ hours -> fst h <> date.
Proof.
  induction hours as [|h hours IH]; simpl.
  - split; [|done]. intros _ h Hin. by apply elem_of_nil in Hin.
  - destruct (fst h =? date) eqn:E; simpl.
    + apply Z.eqb_eq in E. split; [discriminate|].
      intros H. destruct (H h); [left|done].
    + apply Z.eqb_neq in E. rewrite IH. split.
      * intros H h' [->|Hin]%elem_of_cons; auto.
      * intros H h' Hin. apply H. by right.
Qed.

Lemma role_branch_student_closed db now data user lesson date s :
  student_initiated user s ->
  (forall h, h ∈ available_hours db now (Student.teacher s) date -> fst h <> date) ->
  role_branch available_hours db now data user lesson date
  = if match lesson with
       | Some l => negb (date =? Lesson.date l)
       | None => true
       end
    then RouteError "This hour is not available." 400
    else Ok (mkLocals (Some (JNum (Teacher.lesson_duration (Student.teacher s))))
                      (Some s) (Some (Student.teacher s))).
Proof.
  intros Hs Hclosed%next_dropwhile_None. unfold role_branch. rewrite Hs, Hclosed.
  destruct lesson as [l|]; simpl; [|done].
  rewrite orb_false_r. by destruct (negb _).
Qed.

Lemma role_branch_student_open db now data user lesson date s h :
  student_initiated user s ->
  h ∈ available_hours db now (Student.teacher s) date -> fst h = date ->
  role_branch available_hours db now data user lesson date
  = Ok (mkLocals (Some (JNum (Teacher.lesson_duration (Student.teacher s))))
                 (Some s) (Some (Student.teacher s))).
Proof.
  intros Hs Hin Hh. unfold role_branch. rewrite Hs.
  destruct (next _) eqn:E; [done|].
  pose proof (proj1 (next_dropwhile_None _ _) E h Hin) as Hne. done.
Qed.

Lemma role_branch_teacher db now data user lesson date t :
  teacher_initiated user t ->
  role_branch available_hours db now data user lesson date
  = match Student_get_by_id db (dict_get data "student_id") with
    | Some s =>
        Ok (mkLocals
              (Some (dict_get_default data "duration" (JNum (Teacher.lesson_duration t))))
              (Some s) (Some t))
    | None => RouteError "Student does not exist." 400
    end.
Proof. intros [Hs Ht]. unfold role_branch. by rewrite Hs, Ht. Qed.

Lemma role_branch_no_role db now data user lesson date :
  User.student user = None -> User.teacher user = None ->
  role_branch available_hours db now data user lesson date = Ok (mkLocals None None None).
Proof. intros Hs Ht. unfold role_branch. by rewrite Hs, Ht. Qed.

(** *** Requests that fail, lessons that are created *)

Lemma new_lesson_created db now user data d :
  truthy (dict_get data "date") = true ->
  snd (get_lesson_data strptime available_hours Place_create_or_find int_of_str
                       db now data user None) = Ok d ->
  lessons (store (new_lesson strptime available_hours Place_create_or_find int_of_str
                             db now user data))
  = <[fresh_id (lessons db) :=
        Lesson.mk (LessonData.date d) (LessonData.duration d)
          (LessonData.teacher d) (Some (LessonData.student d))
          (LessonData.meetup_place d) (LessonData.dropoff_place d)
          (LessonData.price d) (LessonData.comments d) (LessonData.is_approved d)
          false (User.row user) []]> (lessons db).
Proof.
  intros Ht Hd. unfold new_lesson. rewrite Ht. simpl.
  destruct (get_lesson_data strptime available_hours Place_create_or_find int_of_str
                            db now data user None) as [ps r].
  simpl in Hd. subst r.
  reflexivity.
Qed.

Lemma new_lesson_fails db now user data m c :
  truthy (dict_get data "date") = true ->
  get_lesson_data strptime available_hours Place_create_or_find int_of_str
                  db now data user None
  = (places db, RouteError m c) ->
  new_lesson strptime available_hours Place_create_or_find int_of_str db now user data
  = mkOutcome db [] (RouteError m c).
Proof.
  intros Ht Hr. unfold new_lesson. rewrite Ht, Hr. simpl. by destruct db.
Qed.

Lemma update_lesson_fails db now user lesson_id data l m c :
  lessons db !! lesson_id = Some l ->
  belongs_to user l ->
  get_lesson_data strptime available_hours Place_create_or_find int_of_str
                  db now data user (Some l)
  = (places db, RouteError m c) ->
  update_lesson strptime available_hours Place_create_or_find int_of_str
    update_only_changed_fields
                db now user lesson_id data
  = mkOutcome db [] (RouteError m c).
Proof.
  intros Hl Hmine Hr. destruct (belongs_to_user_lessons _ _ Hmine) as (mine & Hu & Hm).
  unfold update_lesson. rewrite Hu.
  rewrite (proj2 (filter_by_id_Some _ _ _ _) (conj Hl Hm)), Hr. simpl.
  by destruct db.
Qed.

(** *** Past dates *)

(** C4: a request for a new lesson whose date parses to a time before [now]
    makes [get_lesson_data] fail with "Date is not valid.", and [new_lesson]
    answers with that error and leaves the store as it was, so no lesson is
    created.  When a lesson is edited the comparison with [now] is skipped:
    the result is that of the role branch and the dict assembly, and it is
    never "Date is not valid.". *)
Theorem past_date_rejected_for_new_lessons db now data user date :
  truthy (dict_get data "date") = true ->
  parse_date strptime (dict_get data "date") = Ok date ->
  date < now ->
  get_lesson_data strptime available_hours Place_create_or_find int_of_str
                  db now data user None
  = (places db, RouteError "Date is not valid." 400)
  /\ new_lesson strptime available_hours Place_create_or_find int_of_str db now user data
     = mkOutcome db [] (RouteError "Date is not valid." 400)
  /\ (forall l,
        get_lesson_data strptime available_hours Place_create_or_find int_of_str
                        db now data user (Some l)
        = match role_branch available_hours db now data user (Some l) date with
          | Ok locals =>
              lesson_dict Place_create_or_find int_of_str (places db) data user date
                          locals
          | RouteError m c => (places db, RouteError m c)
          | Raised e => (places db, Raised e)
          end)
  /\ (forall l,
        snd (get_lesson_data strptime available_hours Place_create_or_find int_of_str
                             db now data user (Some l))
        <> RouteError "Date is not valid." 400).
Proof.
  intros Ht Hp Hlt.
  assert (get_lesson_data strptime available_hours Place_create_or_find int_of_str
                          db now data user None
          = (places db, RouteError "Date is not valid." 400)) as Hnew.
  { unfold get_lesson_data. rewrite Ht, Hp. simpl.
    apply Z.ltb_lt in Hlt. by rewrite Hlt. }
  assert (forall l, date_accepted strptime now data (Some l) date) as Hacc.
  { intros l. repeat split; try done. }
  split; [exact Hnew|]. split.
  - unfold new_lesson. rewrite Ht, Hnew. simpl. by destruct db.
  - split.
    + intros l. by apply get_lesson_data_accepted.
    + intros l. rewrite (get_lesson_data_accepted _ _ _ _ _ _ (Hacc l)).
      destruct (role_branch available_hours _ _ _ _ _ _) as [locals|m c|e] eqn:E.
      * apply lesson_dict_no_route_error.
      * simpl. unfold role_branch in E.
        destruct (User.student user).
        { destruct (next _); [discriminate|].
          destruct (_ || _); [|discriminate].
          injection E as <- <-. discriminate. }
        destruct (User.teacher user); [|discriminate].
        destruct (Student_get_by_id _ _); [discriminate|].
        injection E as <- <-. discriminate.
      * discriminate.
Qed.

(** *** Student requests *)

(** C3 as amended: for a request of a student whose date passes the date
    validation and is no slot start in the available hours of the student's
    teacher, [get_lesson_data] fails with "This hour is not available."
    unless a lesson is edited and the date is that lesson's own date; then
    the check is passed over and the dict is assembled, with the date asked
    for, whenever the price converts.  The failure is the answer of
    [new_lesson] and of [update_lesson], which leave the store as it was. *)
Theorem student_request_needs_open_slot db now data user lesson s date :
  student_initiated user s ->
  date_accepted strptime now data lesson date ->
  (forall h, h ∈ available_hours db now (Student.teacher s) date -> fst h <> date) ->
  ((forall l, lesson = Some l -> Lesson.date l <> date) ->
   get_lesson_data strptime available_hours Place_create_or_find int_of_str
                   db now data user lesson
   = (places db, RouteError "This hour is not available." 400))
  /\ (forall l, lesson = Some l -> Lesson.date l = date ->
        get_lesson_data strptime available_hours Place_create_or_find int_of_str
                        db now data user lesson
        = lesson_dict Place_create_or_find int_of_str (places db) data user date
            (mkLocals (Some (JNum (Teacher.lesson_duration (Student.teacher s))))
                      (Some s) (Some (Student.teacher s)))
        /\ snd (get_lesson_data strptime available_hours Place_create_or_find int_of_str
                                db now data user lesson)
           <> RouteError "This hour is not available." 400
        /\ (forall price, parse_price int_of_str data = Ok price ->
              exists d,
                snd (get_lesson_data strptime available_hours Place_create_or_find
                                     int_of_str db now data user lesson) = Ok d
                /\ LessonData.date d = date /\ LessonData.student d = s))
  /\ (lesson = None ->
      new_lesson strptime available_hours Place_create_or_find int_of_str db now user data
      = mkOutcome db [] (RouteError "This hour is not available." 400))
  /\ (forall lesson_id l,
        lesson = Some l -> Lesson.date l <> date ->
        lessons db !! lesson_id = Some l -> belongs_to user l ->
        update_lesson strptime available_hours Place_create_or_find int_of_str
    update_only_changed_fields
                      db now user lesson_id data
        = mkOutcome db [] (RouteError "This hour is not available." 400)).
Proof.
  intros Hs Hacc Hclosed.
  assert ((forall l, lesson = Some l -> Lesson.date l <> date) ->
          get_lesson_data strptime available_hours Place_create_or_find int_of_str
                          db now data user lesson
          = (places db, RouteError "This hour is not available." 400)) as Hfail.
  { rewrite (get_lesson_data_accepted _ _ _ _ _ _ Hacc).
    rewrite (role_branch_student_closed _ _ _ _ _ _ _ Hs Hclosed).
    intros Hother. destruct lesson as [l|]; [|done].
    specialize (Hother l eq_refl).
    destruct (date =? Lesson.date l) eqn:E; [|done].
    apply Z.eqb_eq in E. congruence. }
  split; [exact Hfail|].
  split; [|split].
  2:{ intros ->. apply new_lesson_fails; [apply Hacc|].
      apply Hfail. discriminate. }
  2:{ intros lesson_id l -> Hdate Hl Hmine.
      apply (update_lesson_fails _ _ _ _ _ l); [done|done|].
      apply Hfail. by intros ? [= <-]. }
  rewrite (get_lesson_data_accepted _ _ _ _ _ _ Hacc).
  rewrite (role_branch_student_closed _ _ _ _ _ _ _ Hs Hclosed).
  - intros l -> Hdate.
    assert ((date =? Lesson.date l) = true) as -> by (apply Z.eqb_eq; congruence).
    simpl. split; [done|]. split; [apply lesson_dict_no_route_error|].
    intros price Hprice.
    destruct (lesson_dict_bound_result (places db) data user date
                (JNum (Teacher.lesson_duration (Student.teacher s))) s
                (Student.teacher s)) as (Hok & _).
    destruct (Hok price Hprice) as (d & Hd & Hdd & Hds & _). eauto.
Qed.

(** *** Teacher requests *)

Lemma get_lesson_data_teacher db now data user lesson t s date :
  teacher_initiated user t ->
  date_accepted strptime now data lesson date ->
  Student_get_by_id db (dict_get data "student_id") = Some s ->
  get_lesson_data strptime available_hours Place_create_or_find int_of_str
                  db now data user lesson
  = lesson_dict Place_create_or_find int_of_str (places db) data user date
      (mkLocals
         (Some (dict_get_default data "duration" (JNum (Teacher.lesson_duration t))))
         (Some s) (Some t)).
Proof.
  intros Ht Hacc Hs.
  rewrite (get_lesson_data_accepted _ _ _ _ _ _ Hacc).
  by rewrite (role_branch_teacher _ _ _ _ _ _ _ Ht), Hs.
Qed.

(** C8 as amended: for a request of a teacher for a new lesson whose date
    passes the date validation, [get_lesson_data] fails with "Student does
    not exist." when [student_id] resolves to no student; otherwise the dict
    it returns has [is_approved = True], the teacher and the student, and
    the duration of the request or, without one, the teacher's
    [lesson_duration]; it returns a dict whenever the price converts, and
    [new_lesson] then stores the lesson approved. *)
Theorem teacher_create_lesson_data db now data user t date :
  teacher_initiated user t ->
  date_accepted strptime now data None date ->
  (Student_get_by_id db (dict_get data "student_id") = None ->
   get_lesson_data strptime available_hours Place_create_or_find int_of_str
                   db now data user None
   = (places db, RouteError "Student does not exist." 400))
  /\ (forall s,
        Student_get_by_id db (dict_get data "student_id") = Some s ->
        (forall d,
           snd (get_lesson_data strptime available_hours Place_create_or_find int_of_str
                                db now data user None) = Ok d ->
           LessonData.is_approved d = true
           /\ LessonData.student d = s /\ LessonData.teacher d = t
           /\ (data !! "duration" = None ->
               LessonData.duration d = JNum (Teacher.lesson_duration t))
           /\ (forall v, data !! "duration" = Some v -> LessonData.duration d = v))
        /\ (forall price, parse_price int_of_str data = Ok price ->
              exists d,
                snd (get_lesson_data strptime available_hours Place_create_or_find
                                     int_of_str db now data user None) = Ok d
                /\ LessonData.date d = date
                /\ LessonData.is_approved d = true)
        /\ (forall price, parse_price int_of_str data = Ok price ->
              exists l,
                lessons (store (new_lesson strptime available_hours
                                           Place_create_or_find int_of_str
                                           db now user data))
                  !! fresh_id (lessons db) = Some l
                /\ Lesson.is_approved l = true /\ Lesson.date l = date
                /\ Lesson.student l = Some s)).
Proof.
  intros Ht Hacc.
  pose proof (fun d => new_lesson_created db now user data d (proj1 Hacc)) as Hnew.
  revert Hnew.
  rewrite (get_lesson_data_accepted _ _ _ _ _ _ Hacc).
  rewrite (role_branch_teacher _ _ _ _ _ _ _ Ht).
  intros Hnew.
  split; [by intros ->|].
  intros s Hs. rewrite Hs in Hnew |- *.
  destruct (lesson_dict_bound_result (places db) data user date
              (dict_get_default data "duration" (JNum (Teacher.lesson_duration t)))
              s t) as (Hok & Hany & _).
  destruct Ht as [_ Ht]. rewrite Ht in Hok, Hany. simpl in Hok, Hany.
  split.
  - intros d Hd. destruct (Hany d Hd) as (_ & Hst & Hte & Hdu & Hap).
    repeat split; try done.
    + intros Hnone. rewrite Hdu. unfold dict_get_default. by rewrite Hnone.
    + intros v Hv. rewrite Hdu. unfold dict_get_default. by rewrite Hv.
  - split.
    + intros price Hprice.
      destruct (Hok price Hprice) as (d & Hd & Hdd & _ & _ & _ & _ & Hap).
      eauto.
    + intros price Hprice.
      destruct (Hok price Hprice) as (d & Hd & Hdd & Hds & _ & _ & _ & Hap).
      rewrite (Hnew d Hd). eexists. split; [apply lookup_insert_eq|].
      simpl. by rewrite Hds, Hdd, Hap.
Qed.

(** *** Unassigned locals *)

Lemma role_branch_with_role db now data user lesson date locals :
  is_Some (User.student user) \/ is_Some (User.teacher user) ->
  role_branch available_hours db now data user lesson date = Ok locals ->
  exists duration s t, locals = mkLocals (Some duration) (Some s) (Some t).
Proof.
  intros Hrole E. unfold role_branch in E.
  destruct (User.student user) as [s|].
  - destruct (next _); [injection E as <-; eauto|].
    destruct (_ || _); [discriminate|]. injection E as <-; eauto.
  - destruct (User.teacher user) as [t|].
    + destruct (Student_get_by_id _ _); [|discriminate]. injection E as <-; eauto.
    + destruct Hrole as [[? ?]|[? ?]]; discriminate.
Qed.

Lemma role_branch_never_raises db now data user lesson date e :
  role_branch available_hours db now data user lesson date <> Raised e.
Proof.
  unfold role_branch. destruct (User.student user).
  - destruct (next _); [discriminate|]. destruct (_ || _); discriminate.
  - destruct (User.teacher user); [|discriminate].
    destruct (Student_get_by_id _ _); discriminate.
Qed.

(** C10 as amended: for a user with a student or a teacher role
    [get_lesson_data] never reads an unassigned local; for a user with
    neither role, a request whose date passes the date validation reaches
    the read of the unassigned [student] and ends in [UnboundLocalError],
    which is no [RouteError]. *)
Theorem unbound_local_only_without_role db now data user lesson :
  (is_Some (User.student user) \/ is_Some (User.teacher user) ->
   snd (get_lesson_data strptime available_hours Place_create_or_find int_of_str
                        db now data user lesson) <> Raised UnboundLocalError)
  /\ (User.student user = None -> User.teacher user = None ->
      forall date, date_accepted strptime now data lesson date ->
        get_lesson_data strptime available_hours Place_create_or_find int_of_str
                        db now data user lesson
        = (places db, Raised UnboundLocalError)).
Proof.
  split.
  - intros Hrole. unfold get_lesson_data.
    destruct (negb (truthy _)); [discriminate|].
    destruct (parse_date _ _) as [date|m c|e] eqn:Ep; [|discriminate|].
    + destruct (_ && _); [discriminate|].
      destruct (role_branch available_hours _ _ _ _ _ _) as [locals|m c|e] eqn:E;
        [|discriminate|].
      * destruct (role_branch_with_role _ _ _ _ _ _ _ Hrole E) as (du & s & t & ->).
        apply lesson_dict_bound_result.
      * by destruct (role_branch_never_raises db now data user lesson date e).
    + simpl. intros [= ->]. unfold parse_date in Ep.
      destruct (dict_get data "date") as [| | |str| | |]; try discriminate.
      destruct (strptime str); discriminate.
  - intros Hs Ht date Hacc.
    rewrite (get_lesson_data_accepted _ _ _ _ _ _ Hacc).
    by rewrite (role_branch_no_role _ _ _ _ _ _ Hs Ht).
Qed.

(** *** Prices *)

(** An absent price, or a string that [int] rejects, becomes [None]; the
    default of [data.get] is the empty string, which [int] rejects. *)
Lemma parse_price_unparsable data :
  int_of_str "" = None ->
  data !! "price" = None
  \/ (exists str, data !! "price" = Some (JStr str) /\ int_of_str str = None) ->
  parse_price int_of_str data = Ok None.
Proof.
  unfold parse_price, dict_get_default. intros Hempty [->|(str & -> & Hstr)]; simpl.
  - by rewrite Hempty.
  - by rewrite Hstr.
Qed.

(** A price given as a float: a finite one is cut off to an integer, NaN
    becomes [None] ([int] raises [ValueError]), an infinity escapes as
    [OverflowError]. *)
Lemma parse_price_float data f :
  data !! "price" = Some (JFloat f) ->
  parse_price int_of_str data
  = match int_of_float f with
    | inr n => Ok (Some n)
    | inl ValueError => Ok None
    | inl e => Raised e
    end.
Proof. unfold parse_price, dict_get_default. by intros ->. Qed.

(** A JSON [null], list or object is no string: [int] raises [TypeError],
    which the handler for [ValueError] lets through. *)
Lemma parse_price_type_error data v :
  data !! "price" = Some v ->
  match v with JNull | JArr _ | JObj _ => True | _ => False end ->
  parse_price int_of_str data = Raised TypeError.
Proof.
  unfold parse_price, dict_get_default. intros -> Hv. by destruct v.
Qed.

(** X18: a request of a teacher that passes every check of
    [get_lesson_data] and carries ["price": null] ends in an escaping
    [TypeError]: the handler around [int] catches [ValueError] only. *)
Lemma null_price_escapes db now data user lesson t s date :
  teacher_initiated user t ->
  date_accepted strptime now data lesson date ->
  Student_get_by_id db (dict_get data "student_id") = Some s ->
  data !! "price" = Some JNull ->
  snd (get_lesson_data strptime available_hours Place_create_or_find int_of_str
                       db now data user lesson) = Raised TypeError.
Proof.
  intros Ht Hacc Hs Hprice.
  rewrite (get_lesson_data_teacher _ _ _ _ _ _ _ _ Ht Hacc Hs).
  rewrite lesson_dict_bound. cbv zeta.
  by rewrite (parse_price_type_error data JNull Hprice I).
Qed.

(** X23: a request of a teacher that passes every check of
    [get_lesson_data] and carries a float as the price: [int] cuts a finite
    float off towards zero and the result is the price, NaN makes [int]
    raise the [ValueError] that the handler turns into the price [None],
    and an infinity ends in an escaping [OverflowError]. *)
Lemma float_price_converted db now data user lesson t s date f :
  teacher_initiated user t ->
  date_accepted strptime now data lesson date ->
  Student_get_by_id db (dict_get data "student_id") = Some s ->
  data !! "price" = Some (JFloat f) ->
  match f with
  | S754_infinity _ =>
      snd (get_lesson_data strptime available_hours Place_create_or_find int_of_str
                           db now data user lesson) = Raised OverflowError
  | _ =>
      exists d,
        snd (get_lesson_data strptime available_hours Place_create_or_find int_of_str
                             db now data user lesson) = Ok d
        /\ LessonData.price d
           = match f with
             | S754_finite sign m e =>
                 Some (Z.quot ((if sign then -1 else 1) * Z.pos m * 2 ^ Z.max e 0)
                              (2 ^ Z.max (- e) 0))
             | S754_zero _ => Some 0
             | _ => None
             end
  end.
Proof.
  intros Ht Hacc Hs Hprice.
  rewrite (get_lesson_data_teacher _ _ _ _ _ _ _ _ Ht Hacc Hs).
  rewrite lesson_dict_bound. cbv zeta.
  rewrite (parse_price_float data f Hprice).
  destruct f as [b|b| |sign m e]; cbn [int_of_float snd]; [eauto|done|eauto|].
  eexists. split; [reflexivity|]. cbn [LessonData.price]. f_equal.
  destruct (Z.leb_spec 0 e) as [He|He].
  - rewrite (Z.max_l e 0), (Z.max_r (- e) 0) by lia.
    rewrite Z.pow_0_r, Z.quot_1_r. destruct sign; lia.
  - rewrite (Z.max_r e 0), (Z.max_l (- e) 0) by lia.
    rewrite Z.pow_0_r, Z.mul_1_r.
    assert (0 < 2 ^ (- e)) as Hpos by (apply Z.pow_pos_nonneg; lia).
    destruct sign.
    + replace (-1 * Z.pos m) with (- Z.pos m) by lia.
      rewrite Z.quot_opp_l by lia. rewrite Z.quot_div_nonneg by lia. done.
    + rewrite Z.mul_1_l. rewrite Z.quot_div_nonneg by lia. done.
Qed.

Lemma get_lesson_data_without_price db now data user lesson :
  int_of_str "" = None ->
  parse_price int_of_str data = Ok None ->
  get_lesson_data strptime available_hours Place_create_or_find int_of_str
                  db now data user lesson
  = get_lesson_data strptime available_hours Place_create_or_find int_of_str
                    db now (delete "price" data) user lesson.
Proof.
  intros Hempty Hprice.
  assert (parse_price int_of_str (delete "price" data) = Ok None) as Hprice'.
  { unfold parse_price, dict_get_default. rewrite lookup_delete_eq. simpl.
    by rewrite Hempty. }
  unfold get_lesson_data, role_branch, lesson_dict, dict_get, dict_get_default.
  rewrite Hprice, Hprice'.
  by rewrite !lookup_delete_ne by done.
Qed.

(** The dict carries the price that the conversion gave. *)
Lemma get_lesson_data_price db now data user lesson price d :
  parse_price int_of_str data = Ok price ->
  snd (get_lesson_data strptime available_hours Place_create_or_find int_of_str
                       db now data user lesson) = Ok d ->
  LessonData.price d = price.
Proof.
  intros Hprice. unfold get_lesson_data.
  destruct (negb (truthy _)); [discriminate|].
  destruct (parse_date _ _) as [date|m c|e]; [|discriminate|discriminate].
  destruct (_ && _); [discriminate|].
  destruct (role_branch available_hours _ _ _ _ _ _) as [locals|m c|e];
    [|discriminate|discriminate].
  unfold lesson_dict. destruct (local_student locals); [|discriminate].
  destruct (handle_places _ _ _ _ _) as [ps' [me dr]]. rewrite Hprice.
  destruct (local_teacher locals), (local_duration locals); try discriminate.
  by intros [= <-].
Qed.

(** C9 as amended: [int] rejects the empty string, so when the price field
    is absent, or is a string that [int] rejects, the price is [None]:
    every dict that [get_lesson_data] returns carries [price = None], and
    the request fares as the same request without a price field does.  A
    price given as a JSON integer is kept as the price. *)
Theorem unparsable_price_becomes_none db now data user lesson :
  int_of_str "" = None ->
  (data !! "price" = None
   \/ (exists str, data !! "price" = Some (JStr str) /\ int_of_str str = None) ->
   parse_price int_of_str data = Ok None
   /\ (forall d,
         snd (get_lesson_data strptime available_hours Place_create_or_find int_of_str
                              db now data user lesson) = Ok d ->
         LessonData.price d = None)
   /\ get_lesson_data strptime available_hours Place_create_or_find int_of_str
                      db now data user lesson
      = get_lesson_data strptime available_hours Place_create_or_find int_of_str
                        db now (delete "price" data) user lesson)
  /\ (forall n,
        data !! "price" = Some (JNum n) ->
        parse_price int_of_str data = Ok (Some n)
        /\ (forall d,
              snd (get_lesson_data strptime available_hours Place_create_or_find
                                   int_of_str db now data user lesson) = Ok d ->
              LessonData.price d = Some n)).
Proof.
  intros Hempty. split.
  - intros Hbad. pose proof (parse_price_unparsable data Hempty Hbad) as Hprice.
    split; [exact Hprice|]. split.
    + intros d. by apply get_lesson_data_price.
    + by apply get_lesson_data_without_price.
  - intros n Hn.
    assert (parse_price int_of_str data = Ok (Some n)) as Hprice.
    { unfold parse_price, dict_get_default. by rewrite Hn. }
    split; [exact Hprice|]. intros d. by apply get_lesson_data_price.
Qed.

(** *** The slot invariant under creation *)

(** Every dict of [get_lesson_data] is approved exactly for a user with a
    teacher role. *)
Lemma get_lesson_data_is_approved db now data user lesson d :
  snd (get_lesson_data strptime available_hours Place_create_or_find int_of_str
                       db now data user lesson) = Ok d ->
  LessonData.is_approved d = some_row (User.teacher user).
Proof.
  unfold get_lesson_data.
  destruct (negb (truthy _)); [discriminate|].
  destruct (parse_date _ _) as [date|m c|e]; [|discriminate|discriminate].
  destruct (_ && _); [discriminate|].
  destruct (role_branch available_hours _ _ _ _ _ _) as [locals|m c|e];
    [|discriminate|discriminate].
  unfold lesson_dict. destruct (local_student locals); [|discriminate].
  destruct (handle_places _ _ _ _ _) as [ps' [me dr]].
  destruct (parse_price int_of_str data); [|discriminate|discriminate].
  destruct (local_teacher locals), (local_duration locals); try discriminate.
  by intros [= <-].
Qed.

Lemma insert_unapproved_preserves (rows : gmap Z Lesson.t) k l :
  Lesson.is_approved l = false ->
  one_approved_per_slot rows -> one_approved_per_slot (<[k := l]> rows).
Proof.
  intros Hl Hinv k1 k2 l1 l2 H1 H2 A1 A2 Hd.
  rewrite lookup_insert in H1, H2.
  destruct (decide (k = k1)), (decide (k = k2)); simplify_eq; try congruence.
  eapply Hinv; eauto.
Qed.

(** X21: a user without a teacher role keeps the invariant when creating a
    lesson: the lesson is stored unapproved. *)
Lemma new_lesson_without_teacher_preserves db now user data :
  User.teacher user = None ->
  one_approved_per_slot (lessons db) ->
  one_approved_per_slot
    (lessons (store (new_lesson strptime available_hours Place_create_or_find int_of_str
                                db now user data))).
Proof.
  intros Ht Hinv.
  destruct (truthy (dict_get data "date")) eqn:Etruthy.
  - destruct (snd (get_lesson_data strptime available_hours Place_create_or_find int_of_str
                                   db now data user None)) as [d|m c|e] eqn:E.
    + rewrite (new_lesson_created db now user data d Etruthy E).
      apply insert_unapproved_preserves; [|done]. simpl.
      rewrite (get_lesson_data_is_approved _ _ _ _ _ _ E). by rewrite Ht.
    + unfold new_lesson. rewrite Etruthy. simpl.
      destruct (get_lesson_data _ _ _ _ _ _ _ _) as [ps r]. simpl in E. by subst r.
    + unfold new_lesson. rewrite Etruthy. simpl.
      destruct (get_lesson_data _ _ _ _ _ _ _ _) as [ps r]. simpl in E. by subst r.
  - unfold new_lesson. by rewrite Etruthy.
Qed.

(** C1, where the code departs from it: a teacher who creates a lesson at a
    date that already holds an approved lesson gets a second approved lesson
    stored at that date; [new_lesson] runs no conflict query, so the
    invariant that held before is broken after. *)
Theorem teacher_create_double_books db now data user t s date price k0 l0 :
  teacher_initiated user t ->
  date_accepted strptime now data None date ->
  Student_get_by_id db (dict_get data "student_id") = Some s ->
  parse_price int_of_str data = Ok price ->
  lessons db !! k0 = Some l0 ->
  Lesson.is_approved l0 = true ->
  Lesson.date l0 = date ->
  one_approved_per_slot (lessons db) ->
  ~ one_approved_per_slot
      (lessons (store (new_lesson strptime available_hours Place_create_or_find int_of_str
                                  db now user data))).
Proof.
  intros Ht Hacc Hs Hprice Hk0 Hap Hdate _ Hinv.
  destruct (lesson_dict_bound_result (places db) data user date
              (dict_get_default data "duration" (JNum (Teacher.lesson_duration t)))
              s t) as (Hok & _).
  destruct (Hok price Hprice) as (d & Hd & Hdd & _ & _ & _ & _ & Hda).
  rewrite <- (get_lesson_data_teacher _ _ _ _ _ _ _ _ Ht Hacc Hs) in Hd.
  destruct Ht as [_ Ht]. rewrite Ht in Hda. simpl in Hda.
  destruct Hacc as (Htruthy & _).
  rewrite (new_lesson_created db now user data d Htruthy Hd) in Hinv.
  assert (k0 < fresh_id (lessons db)) as Hlt by (apply fresh_id_above; eauto).
  assert (k0 = fresh_id (lessons db)); [|lia].
  eapply Hinv.
  - rewrite lookup_insert_ne; [exact Hk0|lia].
  - apply lookup_insert_eq.
  - exact Hap.
  - exact Hda.
  - simpl. congruence.
Qed.

End LessonDataFacts.

(** ** Soft deletion *)

(** C7: deleting a lesson of the current user stores the row with
    [deleted = true] and every other field as it was; no key leaves the
    table and no other row changes, so the lesson is still found under its
    id, deleted. *)
Theorem delete_lesson_soft_deletes (db : DB) (current_user : User.t)
    (lesson_id : Z) (l : Lesson.t) :
  lessons db !! lesson_id = Some l ->
  belongs_to current_user l ->
  let db' := store (delete_lesson db current_user lesson_id) in
  exists l',
    Lesson_get_by_id db' lesson_id = Some l'
    /\ Lesson.deleted l' = true
    /\ (Lesson.date l' = Lesson.date l
        /\ Lesson.duration l' = Lesson.duration l
        /\ Lesson.teacher l' = Lesson.teacher l
        /\ Lesson.student l' = Lesson.student l
        /\ Lesson.meetup_place l' = Lesson.meetup_place l
        /\ Lesson.dropoff_place l' = Lesson.dropoff_place l
        /\ Lesson.price l' = Lesson.price l
        /\ Lesson.comments l' = Lesson.comments l
        /\ Lesson.is_approved l' = Lesson.is_approved l
        /\ Lesson.creator l' = Lesson.creator l
        /\ Lesson.topics l' = Lesson.topics l)
    /\ dom (lessons db') = dom (lessons db)
    /\ (forall k, k <> lesson_id -> lessons db' !! k = lessons db !! k)
    /\ students db' = students db /\ topics_table db' = topics_table db
    /\ places db' = places db.
Proof.
  intros Hl Hmine db'.
  destruct (belongs_to_user_lessons _ _ Hmine) as (mine & Hu & Hm).
  assert (db' = update_row lesson_id (Lesson.set_deleted true l) db) as ->.
  { unfold db', delete_lesson. rewrite Hu.
    rewrite (proj2 (filter_by_id_Some _ _ _ _) (conj Hl Hm)).
    destruct (same_user _ _); [destruct (Lesson.student _)|]; done. }
  exists (Lesson.set_deleted true l).
  unfold Lesson_get_by_id, update_row, set_lessons; simpl.
  split; [apply lookup_insert_eq|]. split; [done|]. split; [done|].
  split.
  - rewrite dom_insert_L. apply elem_of_dom_2 in Hl. set_solver.
  - split; [|done]. intros k Hk. by rewrite lookup_insert_ne.
Qed.

(** ** Topic submission *)

Section TopicSubmission.

Variable visit_other_id : DB -> string -> json -> Appended -> result Appended.

Lemma append_topic_ids_submitted db key ids st :
  append_topic_ids visit_other_id db key (JNum <$> ids) st
  = append_submitted db (pair key <$> ids) st.
Proof.
  revert st. induction ids as [|i ids IH]; intros st; simpl; [done|].
  destruct (Topic_get_by_id db i); [|done].
  rewrite !IH. done.
Qed.

Lemma append_submitted_app db xs ys st :
  append_submitted db (xs ++ ys) st
  = match append_submitted db xs st with
    | Ok st' => append_submitted db ys st'
    | RouteError m c => RouteError m c
    | Raised e => Raised e
    end.
Proof.
  revert st. induction xs as [|[key i] xs IH]; intros st; simpl; [done|].
  destruct (Topic_get_by_id db i); [|done].
  destruct (existsb _ _); apply IH.
Qed.

(** Among ids that are all [int]s the membership test is membership. *)
Lemma existsb_py_eq_int (i : Z) (seen : list Z) :
  existsb (py_eq_int i) (JNum <$> seen) = bool_decide (i ∈ seen).
Proof.
  induction seen as [|j seen IH]; [done|].
  rewrite fmap_cons. cbn [existsb py_eq_int]. rewrite IH.
  destruct (Z.eqb_spec i j) as [->|Hne]; simpl.
  - symmetry. apply bool_decide_eq_true. left.
  - repeat case_bool_decide; try done; set_solver.
Qed.

Lemma append_buckets_submitted db buckets st :
  append_buckets visit_other_id db
                 ((fun b => (fst b, JArr (JNum <$> snd b))) <$> buckets) st
  = append_submitted db (submitted buckets) st.
Proof.
  revert st. induction buckets as [|[key ids] buckets IH]; intros st; simpl; [done|].
  rewrite append_topic_ids_submitted, append_submitted_app.
  destruct (append_submitted db (pair key <$> ids) st); [apply IH|done|done].
Qed.

(** The entries of [first_occurrences] that a loop with [seen] in
    [appended_ids] still appends. *)
Lemma first_occurrences_unseen (seen : list Z) x rest :
  filter (fun y => snd y ∉ seen) (first_occurrences (x :: rest))
  = if bool_decide (snd x ∈ seen)
    then filter (fun y => snd y ∉ seen) (first_occurrences rest)
    else x :: filter (fun y => snd y ∉ (seen ++ [snd x])%list) (first_occurrences rest).
Proof.
  simpl. rewrite filter_cons. case_bool_decide as Hin; case_decide; try done.
  - rewrite list_filter_filter. apply list_filter_iff.
    intros y. split; [tauto|]. intros Hy. split; [done|congruence].
  - f_equal. rewrite list_filter_filter. apply list_filter_iff.
    intros y. rewrite not_elem_of_app, list_elem_of_singleton. tauto.
Qed.

Lemma append_submitted_all_exist db xs (topics : list LessonTopic.t) (seen : list Z) :
  (forall i, i ∈ snd <$> xs -> is_Some (Topic_get_by_id db i)) ->
  append_submitted db xs (mkAppended topics (JNum <$> seen))
  = Ok (mkAppended
          (topics
             ++ (association <$> filter (fun y => snd y ∉ seen) (first_occurrences xs)))
          (JNum
             <$> (seen ++ (snd <$> filter (fun y => snd y ∉ seen) (first_occurrences xs)))
                 %list)).
Proof.
  revert topics seen. induction xs as [|[key i] xs IH]; intros topics seen Hall.
  - simpl. by rewrite !app_nil_r.
  - rewrite first_occurrences_unseen.
    cbn [append_submitted snd lesson_topics appended_ids].
    destruct (Hall i) as [t ->]; [set_solver|].
    assert (forall j, j ∈ snd <$> xs -> is_Some (Topic_get_by_id db j)) as Hall'.
    { intros j Hj. apply Hall. set_solver. }
    rewrite existsb_py_eq_int.
    case_bool_decide.
    + by apply IH.
    + replace ((JNum <$> seen) ++ [JNum i])%list with (JNum <$> (seen ++ [i])%list)
        by (by rewrite fmap_app).
      rewrite IH by done. cbn [fmap list_fmap].
      by rewrite <- !app_assoc.
Qed.

Lemma append_submitted_missing db xs st i :
  i ∈ snd <$> xs -> Topic_get_by_id db i = None ->
  append_submitted db xs st = RouteError "Topic does not exist." 400.
Proof.
  revert st. induction xs as [|[key j] xs IH]; intros st Hin Hnone.
  - by apply elem_of_nil in Hin.
  - simpl. destruct (Topic_get_by_id db j) eqn:Ej; [|done].
    assert (i ∈ snd <$> xs) as Hin'.
    { rewrite fmap_cons in Hin. apply elem_of_cons in Hin as [->|Hin]; [|done].
      simpl in Hnone. congruence. }
    destruct (existsb _ _); by apply IH.
Qed.

Lemma first_occurrences_elem x xs :
  x ∈ first_occurrences xs -> x ∈ xs.
Proof.
  induction xs as [|y xs IH]; simpl; [done|].
  intros [->|Hin]%elem_of_cons; [left|].
  apply list_elem_of_filter in Hin as [_ Hin]. right. auto.
Qed.

Lemma first_occurrences_ids i xs :
  i ∈ snd <$> first_occurrences xs <-> i ∈ snd <$> xs.
Proof.
  induction xs as [|y xs IH]; [done|]. cbn [first_occurrences].
  rewrite !fmap_cons, !elem_of_cons, <- IH, !list_elem_of_fmap.
  split.
  - intros [->|(z & -> & Hz)]; [by left|].
    apply list_elem_of_filter in Hz as [_ Hz]. right. eauto.
  - intros [->|(z & -> & Hz)]; [by left|].
    destruct (decide (snd z = snd y)) as [->|Hne]; [by left|].
    right. exists z. split; [done|]. by apply list_elem_of_filter.
Qed.

Lemma first_occurrences_NoDup xs : NoDup (snd <$> first_occurrences xs).
Proof.
  induction xs as [|y xs IH]; [constructor|]. cbn [first_occurrences].
  rewrite fmap_cons. constructor.
  - rewrite list_elem_of_fmap. intros (z & Hz & Hin).
    apply list_elem_of_filter in Hin as [Hne _]. congruence.
  - revert IH. generalize (first_occurrences xs). intros zs.
    induction zs as [|z zs IHz]; [constructor|].
    rewrite fmap_cons. intros [Hz Hzs]%NoDup_cons.
    rewrite filter_cons. case_decide; [|auto].
    rewrite fmap_cons. constructor; [|auto].
    rewrite list_elem_of_fmap. intros (w & Hw & Hin).
    apply list_elem_of_filter in Hin as [_ Hin].
    apply Hz. rewrite list_elem_of_fmap. eauto.
Qed.

Lemma first_occurrences_first key i xs :
  (key, i) ∈ first_occurrences xs ->
  find (fun y => snd y =? i) xs = Some (key, i).
Proof.
  induction xs as [|y xs IH]; simpl.
  - intros Hin. by apply elem_of_nil in Hin.
  - intros [<-|Hin]%elem_of_cons; simpl.
    + by rewrite Z.eqb_refl.
    + apply list_elem_of_filter in Hin as [Hne Hin]. simpl in Hne.
      assert ((snd y =? i) = false) as -> by (apply Z.eqb_neq; congruence).
      auto.
Qed.

Lemma filter_unseen_nil (xs : list (string * Z)) :
  filter (fun y => snd y ∉ ([] : list Z)) xs = xs.
Proof.
  induction xs as [|x xs IH]; [done|].
  rewrite filter_cons_True; [by rewrite IH|]. apply not_elem_of_nil.
Qed.

Lemma update_topics_loops db lesson_id data l buckets :
  lessons db !! lesson_id = Some l ->
  is_Some (Lesson.student l) ->
  data !! "topics" = Some (submission buckets) ->
  update_topics visit_other_id db lesson_id data
  = match append_submitted db (submitted buckets) (mkAppended (Lesson.topics l) []) with
    | Ok st =>
        mkOutcome (update_row lesson_id (Lesson.set_topics (lesson_topics st) l) db) []
                  (Ok (Lesson.set_topics (lesson_topics st) l))
    | RouteError m c => mkOutcome db [] (RouteError m c)
    | Raised e => mkOutcome db [] (Raised e)
    end.
Proof.
  intros Hl [s Hs] Hdata. unfold update_topics, Lesson_get_by_id.
  rewrite Hl, Hs. simpl.
  unfold dict_get, dict_get_default. rewrite Hdata. simpl.
  by rewrite append_buckets_submitted.
Qed.

(** C5 as amended: for a submission to an existing lesson with a student
    assigned, in which every id is the key of a topic, [update_topics]
    appends one association per distinct id, in the order of the first
    occurrences, finished exactly when the first occurrence of the id lies
    under the key "finished"; when some submitted id is the key of no topic
    it fails with "Topic does not exist." and stores nothing. *)
Theorem update_topics_appends_once (db : DB) (lesson_id : Z)
    (data : gmap string json) (l : Lesson.t) (buckets : list (string * list Z)) :
  lessons db !! lesson_id = Some l ->
  is_Some (Lesson.student l) ->
  data !! "topics" = Some (submission buckets) ->
  ((forall i, i ∈ snd <$> submitted buckets -> is_Some (Topic_get_by_id db i)) ->
   exists new,
     update_topics visit_other_id db lesson_id data
     = mkOutcome
         (update_row lesson_id (Lesson.set_topics (Lesson.topics l ++ new) l) db) []
         (Ok (Lesson.set_topics (Lesson.topics l ++ new) l))
     /\ new = association <$> first_occurrences (submitted buckets)
     /\ NoDup (LessonTopic.topic_id <$> new)
     /\ (forall i, i ∈ LessonTopic.topic_id <$> new <-> i ∈ snd <$> submitted buckets)
     /\ (forall lt, lt ∈ new ->
           exists key,
             find (fun y => snd y =? LessonTopic.topic_id lt) (submitted buckets)
             = Some (key, LessonTopic.topic_id lt)
             /\ LessonTopic.is_finished lt = String.eqb key "finished"))
  /\ ((exists i, i ∈ snd <$> submitted buckets /\ Topic_get_by_id db i = None) ->
      update_topics visit_other_id db lesson_id data
      = mkOutcome db [] (RouteError "Topic does not exist." 400)).
Proof.
  intros Hl Hs Hdata.
  rewrite (update_topics_loops db lesson_id data l buckets Hl Hs Hdata).
  split.
  - intros Hall.
    pose proof (append_submitted_all_exist db _ (Lesson.topics l) [] Hall) as Happ.
    change (JNum <$> []) with (@nil json) in Happ. rewrite Happ.
    cbn [lesson_topics]. rewrite filter_unseen_nil.
    exists (association <$> first_occurrences (submitted buckets)).
    assert (LessonTopic.topic_id <$> (association <$> first_occurrences (submitted buckets))
            = snd <$> first_occurrences (submitted buckets)) as Hids.
    { rewrite <- list_fmap_compose. done. }
    split; [done|]. split; [done|]. rewrite Hids.
    split; [apply first_occurrences_NoDup|].
    split; [intros i; apply first_occurrences_ids|].
    intros lt [[key i] [-> Hin]]%list_elem_of_fmap.
    exists key. split; [|done]. simpl. by apply first_occurrences_first.
  - intros (i & Hin & Hnone).
    by rewrite (append_submitted_missing _ _ _ _ Hin Hnone).
Qed.

End TopicSubmission.

(** ** Topic progress *)

Lemma elem_of_topic_ids_with b l t :
  t ∈ topic_ids_with b l
  <-> exists lt, lt ∈ Lesson.topics l /\ LessonTopic.topic_id lt = t
                 /\ LessonTopic.is_finished lt = b.
Proof.
  unfold topic_ids_with. rewrite list_elem_of_fmap. split.
  - intros (lt & -> & [Hb Hin]%list_elem_of_filter). eauto.
  - intros (lt & Hin & <- & Hb). exists lt. split; [done|].
    by apply list_elem_of_filter.
Qed.

Lemma elem_of_Student_topics db s b t :
  t ∈ Student_topics db s b
  <-> exists k l, lessons db !! k = Some l /\ of_student s l = true
                  /\ t ∈ topic_ids_with b l.
Proof.
  unfold Student_topics. rewrite elem_of_list_to_set, list_elem_of_In, in_flat_map.
  split.
  - intros ([k l] & Hin & Ht). simpl in Ht.
    apply list_elem_of_In, elem_of_map_to_list in Hin.
    destruct (of_student s l) eqn:E; [|by destruct Ht].
    apply list_elem_of_In in Ht. eauto.
  - intros (k & l & Hkl & Hs & Ht). exists (k, l). simpl. rewrite Hs. split.
    + by apply list_elem_of_In, elem_of_map_to_list.
    + by apply list_elem_of_In.
Qed.

Section TopicProgress.

Variable lesson_number : DB -> Z -> Lesson.t -> Z.

Lemma topics_existing_lesson db lesson_id student_id l s :
  lessons db !! lesson_id = Some l ->
  Lesson.student l = Some s ->
  lesson_id <> 0 ->
  (forall t, t ∈ topic_ids_with true l -> is_Some (Topic_get_by_id db t)) ->
  topics lesson_number db lesson_id student_id
  = Ok (mkTopicsResponse
          ((Student_topics db s false
              ∪ list_to_set (Topic_for_lesson db (lesson_number db lesson_id l)))
             ∖ Student_topics db s true
             ∪ list_to_set (topic_ids_with true l))
          (topic_ids_with false l) (topic_ids_with true l)).
Proof.
  intros Hl Hs Hid Hfk. unfold topics, Lesson_get_by_id.
  assert ((lesson_id =? 0) = false) as -> by by apply Z.eqb_neq.
  rewrite Hl, Hs. simpl.
  assert (forallb (fun t => some_row (Topic_get_by_id db t)) (topic_ids_with true l)
          = true) as ->; [|done].
  apply forallb_forall. intros t Ht%list_elem_of_In.
  by destruct (Hfk t Ht) as [? ->].
Qed.

(** C6 as amended: for a lesson stored under a non-zero id, with a student
    assigned and with topic rows behind its finished associations, [topics]
    answers with an [available] set that holds every topic finished in this
    lesson and no topic that is finished in another lesson of the student
    without being finished in this one; [progress] and [finished] list the
    topic ids of the associations of this lesson that are marked not
    finished and finished. *)
Theorem topics_of_existing_lesson db lesson_id student_id l s :
  lessons db !! lesson_id = Some l ->
  Lesson.student l = Some s ->
  lesson_id <> 0 ->
  (forall t, t ∈ topic_ids_with true l -> is_Some (Topic_get_by_id db t)) ->
  exists r,
    topics lesson_number db lesson_id student_id = Ok r
    /\ (forall t, t ∈ topic_ids_with true l -> t ∈ available r)
    /\ (forall t k l',
          lessons db !! k = Some l' -> k <> lesson_id -> of_student s l' = true ->
          t ∈ topic_ids_with true l' ->
          t ∉ topic_ids_with true l ->
          t ∉ available r)
    /\ (forall t, t ∈ progress r
                  <-> exists lt, lt ∈ Lesson.topics l /\ LessonTopic.topic_id lt = t
                                 /\ LessonTopic.is_finished lt = false)
    /\ (forall t, t ∈ finished r
                  <-> exists lt, lt ∈ Lesson.topics l /\ LessonTopic.topic_id lt = t
                                 /\ LessonTopic.is_finished lt = true)
    /\ progress r = topic_ids_with false l
    /\ finished r = topic_ids_with true l.
Proof.
  intros Hl Hs Hid Hfk.
  rewrite (topics_existing_lesson db lesson_id student_id l s Hl Hs Hid Hfk).
  eexists. split; [reflexivity|]. simpl.
  split; [|split; [|split; [|split]]].
  - intros t Ht. apply elem_of_union_r. by apply elem_of_list_to_set.
  - intros t k l' Hk Hne Hof Ht Hnot.
    assert (t ∈ Student_topics db s true) as Hfin.
    { apply elem_of_Student_topics. eauto. }
    rewrite elem_of_union, elem_of_difference, elem_of_list_to_set. tauto.
  - intros t. apply elem_of_topic_ids_with.
  - intros t. apply elem_of_topic_ids_with.
  - done.
Qed.

End TopicProgress.

(** ** The properties at work in the small school *)

Lemma school_one_approved_per_slot : one_approved_per_slot (lessons school).
Proof.
  intros k1 k2 l1 l2 H1 H2 _ _ _. simpl in H1, H2.
  apply lookup_singleton_Some in H1 as [<- _].
  apply lookup_singleton_Some in H2 as [<- _]. reflexivity.
Defined.

Lemma school_accepts_nine :
  date_accepted sample_strptime 500 (lesson_request "09:00" 20) None 900.
Proof. repeat split. intros _. lia. Defined.

(** The teacher books 09:00 for her student while an approved lesson sits at
    09:00: the store ends with two approved lessons at 09:00. *)
Lemma teacher_create_double_books_witness :
  one_approved_per_slot (lessons school)
  /\ ~ one_approved_per_slot
        (lessons (store (new_lesson sample_strptime sample_hours sample_places sample_int
                                    school 500 as_teacher (lesson_request "09:00" 20)))).
Proof.
  split; [exact school_one_approved_per_slot|].
  apply (teacher_create_double_books sample_strptime sample_hours sample_places sample_int
           school 500 (lesson_request "09:00" 20) as_teacher tamar shai 900 None
           1 (lesson_at 900 true [])).
  - split; reflexivity.
  - exact school_accepts_nine.
  - reflexivity.
  - reflexivity.
  - reflexivity.
  - reflexivity.
  - reflexivity.
  - exact school_one_approved_per_slot.
Defined.

Lemma school_pending_conflict :
  conflicting (lessons school_pending) 2 (lesson_at 900 false []).
Proof.
  exists 1, (lesson_at 900 true []).
  split; [reflexivity|]. split; [lia|]. split; reflexivity.
Defined.

Lemma school_no_conflict : ~ conflicting (lessons school) 1 (lesson_at 900 true []).
Proof.
  intros (k & o & Hk & Hne & _). simpl in Hk.
  apply lookup_singleton_Some in Hk as [<- _]. by apply Hne.
Defined.

(** Approving: an unknown key, a conflict at 09:00, and a free slot. *)
Lemma approve_lesson_spec_witness :
  approve_lesson school tamar 5
  = mkOutcome school [] (RouteError "Lesson does not exist" 404)
  /\ approve_lesson school_pending tamar 2
     = mkOutcome school_pending []
         (RouteError "There is another lesson at the same time." 400)
  /\ response (approve_lesson school tamar 1) = Ok "Lesson approved.".
Proof.
  split; [|split].
  - apply (proj1 (approve_lesson_spec school tamar 5)).
    intros l Hl. simpl in Hl. apply lookup_singleton_Some in Hl as [Hl _]. lia.
  - apply (proj1 (proj2 (approve_lesson_spec school_pending tamar 2)
                    (lesson_at 900 false []) eq_refl eq_refl)).
    exact school_pending_conflict.
  - apply (proj2 (proj2 (approve_lesson_spec school tamar 1)
                    (lesson_at 900 true []) eq_refl eq_refl)).
    + exact school_no_conflict.
    + simpl. eauto.
Defined.

Lemma sample_hours_closed (db : DB) (now : datetime) (t : Teacher.t) :
  forall h, h ∈ sample_hours db now t 1100 -> fst h <> 1100.
Proof.
  intros h Hin. apply list_elem_of_singleton in Hin. subst h. simpl. lia.
Defined.

(** The student asks for 11:00, which is no open slot: a new lesson is
    refused, and so is moving the 09:00 lesson there; editing a lesson that
    already is at 11:00 gets its dict. *)
Lemma student_request_needs_open_slot_witness :
  new_lesson sample_strptime sample_hours sample_places sample_int school 500 as_student
             (lesson_request "11:00" 20)
  = mkOutcome school [] (RouteError "This hour is not available." 400)
  /\ update_lesson sample_strptime sample_hours sample_places sample_int
    sample_update school 500 as_student
                   1 (lesson_request "11:00" 20)
     = mkOutcome school [] (RouteError "This hour is not available." 400)
  /\ exists d,
       snd (get_lesson_data sample_strptime sample_hours sample_places sample_int school 500
                            (lesson_request "11:00" 20) as_student
                            (Some (lesson_at 1100 false [])))
       = Ok d /\ LessonData.date d = 1100 /\ LessonData.student d = shai.
Proof.
  assert (forall lesson,
             date_accepted sample_strptime 500 (lesson_request "11:00" 20) lesson 1100)
    as Hacc.
  { intros lesson. repeat split. intros _. lia. }
  split; [|split].
  - destruct (student_request_needs_open_slot sample_strptime sample_hours
                sample_places sample_int sample_update school 500
                    (lesson_request "11:00" 20) as_student
                None shai 1100 eq_refl (Hacc _) (sample_hours_closed _ _ _))
      as (_ & _ & Hnew & _).
    apply Hnew. reflexivity.
  - destruct (student_request_needs_open_slot sample_strptime sample_hours
                sample_places sample_int sample_update school 500
                    (lesson_request "11:00" 20) as_student
                (Some (lesson_at 900 true [])) shai 1100 eq_refl (Hacc _)
                (sample_hours_closed _ _ _))
      as (_ & _ & _ & Hupdate).
    apply (Hupdate 1 (lesson_at 900 true [])); [reflexivity| |reflexivity|reflexivity].
    simpl. lia.
  - destruct (student_request_needs_open_slot sample_strptime sample_hours
                sample_places sample_int sample_update school 500
                    (lesson_request "11:00" 20) as_student
                (Some (lesson_at 1100 false [])) shai 1100 eq_refl (Hacc _)
                (sample_hours_closed _ _ _))
      as (_ & Hexempt & _).
    destruct (Hexempt _ eq_refl eq_refl) as (_ & _ & Hok).
    apply (Hok None). reflexivity.
Defined.

(** C3 fails as stated: a student asks for a new lesson at 01:00, which is
    no open slot and lies before the current time 05:00; the request fails
    with "Date is not valid.", not with "This hour is not available.". *)
Lemma student_past_date_counterexample :
  student_initiated as_student shai
  /\ parse_date sample_strptime (dict_get (lesson_request "01:00" 20) "date") = Ok 100
  /\ (forall h, h ∈ sample_hours school 500 (Student.teacher shai) 100 -> fst h <> 100)
  /\ snd (get_lesson_data sample_strptime sample_hours sample_places sample_int school 500
                          (lesson_request "01:00" 20) as_student None)
     = RouteError "Date is not valid." 400
  /\ snd (get_lesson_data sample_strptime sample_hours sample_places sample_int school 500
                          (lesson_request "01:00" 20) as_student None)
     <> RouteError "This hour is not available." 400.
Proof.
  split; [reflexivity|]. split; [reflexivity|]. split.
  - intros h Hin. apply list_elem_of_singleton in Hin. subst h. simpl. lia.
  - split; [reflexivity|]. discriminate.
Qed.

(** A new lesson at 01:00 when it is 05:00. *)
Lemma past_date_rejected_for_new_lessons_witness :
  new_lesson sample_strptime sample_hours sample_places sample_int school 500 as_teacher
             (lesson_request "01:00" 20)
  = mkOutcome school [] (RouteError "Date is not valid." 400)
  /\ is_ok (snd (get_lesson_data sample_strptime sample_hours sample_places sample_int
                                 school 500 (lesson_request "01:00" 20) as_teacher
                                 (Some (lesson_at 900 true [])))) = true.
Proof.
  split.
  - refine (proj1 (proj2 (past_date_rejected_for_new_lessons sample_strptime
                            sample_hours sample_places sample_int school 500
                            (lesson_request "01:00" 20) as_teacher 100
                            eq_refl eq_refl _))).
    lia.
  - reflexivity.
Defined.

(** A submission with a repeated id: one association, flagged by the key
    of the first occurrence. *)
Lemma update_topics_appends_once_witness :
  exists new,
    update_topics sample_other_id school 1
        (topics_request [("progress", [7]); ("finished", [7; 7])])
    = mkOutcome
        (update_row 1 (Lesson.set_topics (Lesson.topics (lesson_at 900 true []) ++ new)
                                         (lesson_at 900 true [])) school) []
        (Ok (Lesson.set_topics (Lesson.topics (lesson_at 900 true []) ++ new)
                               (lesson_at 900 true [])))
    /\ new = [LessonTopic.mk false 7].
Proof.
  assert (is_Some (Lesson.student (lesson_at 900 true []))) as Hs by (simpl; eauto).
  assert (forall i, i ∈ snd <$> submitted [("progress", [7]); ("finished", [7; 7])] ->
                    is_Some (Topic_get_by_id school i)) as Hall.
  { intros i Hi. simpl in Hi. assert (i = 7) as -> by set_solver. simpl. eauto. }
  destruct (proj1 (update_topics_appends_once sample_other_id school 1
                     (topics_request [("progress", [7]); ("finished", [7; 7])])
                     (lesson_at 900 true [])
                     [("progress", [7]); ("finished", [7; 7])]
                     eq_refl Hs eq_refl) Hall) as (new & Hr & Hnew & _).
  exists new. split; [exact Hr|]. rewrite Hnew. reflexivity.
Defined.

(** C5 fails as stated: every submitted id is the key of a topic, yet the
    submission goes to a lesson that does not exist; it fails with "Lesson
    does not exist." and no association is appended anywhere. *)
Lemma update_topics_missing_lesson_counterexample :
  (forall i, i ∈ snd <$> submitted [("finished", [7])] ->
             is_Some (Topic_get_by_id school i))
  /\ update_topics sample_other_id school 99 (topics_request [("finished", [7])])
     = mkOutcome school [] (RouteError "Lesson does not exist." 400)
  /\ update_topics sample_other_id school 99 (topics_request [("finished", [7])])
     <> mkOutcome school [] (RouteError "Topic does not exist." 400).
Proof.
  split; [|split].
  - intros i Hi. simpl in Hi. assert (i = 7) as -> by set_solver. simpl. eauto.
  - reflexivity.
  - discriminate.
Qed.

(** The second lesson of the student lists [junctions] although the first
    lesson finished it too. *)
Lemma topics_of_existing_lesson_witness :
  exists r,
    topics sample_number school_topics 2 None = Ok r
    /\ 7 ∈ available r /\ progress r = [] /\ finished r = [7].
Proof.
  assert (forall t,
             t ∈ topic_ids_with true (lesson_at 1000 true [LessonTopic.mk true 7]) ->
             is_Some (Topic_get_by_id school_topics t)) as Hfk.
  { intros t Ht. simpl in Ht. assert (t = 7) as -> by set_solver. simpl. eauto. }
  assert (2 <> 0) as Hid by lia.
  destruct (topics_of_existing_lesson sample_number school_topics 2 None
              (lesson_at 1000 true [LessonTopic.mk true 7]) shai
              eq_refl eq_refl Hid Hfk) as (r & Hr & Hfin & _ & _ & _ & Hp & Hf).
  exists r. split; [exact Hr|]. split; [|split].
  - apply Hfin. simpl. set_solver.
  - rewrite Hp. reflexivity.
  - rewrite Hf. reflexivity.
Defined.

(** C6 fails as stated: the student finished [junctions] in lesson 1, a
    lesson other than the queried lesson 2, and [available] for lesson 2
    holds it all the same, because lesson 2 finished it too. *)
Lemma topics_finished_twice_counterexample :
  exists r l1,
    topics sample_number school_topics 2 None = Ok r
    /\ lessons school_topics !! 1 = Some l1
    /\ 1 <> 2
    /\ of_student shai l1 = true
    /\ 7 ∈ topic_ids_with true l1
    /\ 7 ∈ available r.
Proof.
  assert (forall t,
             t ∈ topic_ids_with true (lesson_at 1000 true [LessonTopic.mk true 7]) ->
             is_Some (Topic_get_by_id school_topics t)) as Hfk.
  { intros t Ht. simpl in Ht. assert (t = 7) as -> by set_solver. simpl. eauto. }
  assert (2 <> 0) as Hid by lia.
  rewrite (topics_existing_lesson sample_number school_topics 2 None
             (lesson_at 1000 true [LessonTopic.mk true 7]) shai eq_refl eq_refl Hid Hfk).
  eexists. exists (lesson_at 900 true [LessonTopic.mk true 7]).
  split; [reflexivity|]. split; [reflexivity|]. split; [lia|].
  split; [reflexivity|]. split; [simpl; set_solver|].
  simpl. apply elem_of_union_r. simpl. set_solver.
Qed.

(** The teacher deletes the lesson at 09:00; it stays under key 1. *)
Lemma delete_lesson_soft_deletes_witness :
  exists l',
    Lesson_get_by_id (store (delete_lesson school as_teacher 1)) 1 = Some l'
    /\ Lesson.deleted l' = true /\ Lesson.date l' = 900.
Proof.
  destruct (delete_lesson_soft_deletes school as_teacher 1 (lesson_at 900 true [])
              eq_refl eq_refl) as (l' & Hget & Hdel & (Hdate & _) & _).
  exists l'. split; [exact Hget|]. split; [exact Hdel|]. exact Hdate.
Defined.

(** The teacher books 09:00: an unknown student is refused, her own student
    gets a lesson that is approved and lasts her 40 minutes. *)
Lemma teacher_create_lesson_data_witness :
  get_lesson_data sample_strptime sample_hours sample_places sample_int school 500
                  (lesson_request "09:00" 99) as_teacher None
  = (places school, RouteError "Student does not exist." 400)
  /\ exists d,
       snd (get_lesson_data sample_strptime sample_hours sample_places sample_int school 500
                            (lesson_request "09:00" 20) as_teacher None) = Ok d
       /\ LessonData.is_approved d = true
       /\ LessonData.duration d = JNum 40.
Proof.
  split.
  - apply (proj1 (teacher_create_lesson_data sample_strptime sample_hours
                    sample_places sample_int
                    school 500 (lesson_request "09:00" 99) as_teacher tamar 900
                    (conj eq_refl eq_refl) school_accepts_nine)).
    reflexivity.
  - destruct (proj2 (teacher_create_lesson_data sample_strptime sample_hours
                       sample_places sample_int school 500
                       (lesson_request "09:00" 20) as_teacher
                       tamar 900 (conj eq_refl eq_refl) school_accepts_nine)
                shai eq_refl) as (Hany & Hex & _).
    destruct (Hex None eq_refl) as (d & Hd & _ & Hap).
    exists d. split; [exact Hd|]. split; [exact Hap|].
    destruct (Hany d Hd) as (_ & _ & _ & Hdur & _). apply Hdur. reflexivity.
Defined.

(** C8 fails as stated: the teacher names a student that does not exist and
    a date before the current time; the request fails with "Date is not
    valid.", not with "Student does not exist.". *)
Lemma teacher_past_date_counterexample :
  teacher_initiated as_teacher tamar
  /\ Student_get_by_id school (dict_get (lesson_request "01:00" 99) "student_id") = None
  /\ snd (get_lesson_data sample_strptime sample_hours sample_places sample_int school 500
                          (lesson_request "01:00" 99) as_teacher None)
     = RouteError "Date is not valid." 400
  /\ snd (get_lesson_data sample_strptime sample_hours sample_places sample_int school 500
                          (lesson_request "01:00" 99) as_teacher None)
     <> RouteError "Student does not exist." 400.
Proof.
  split; [split; reflexivity|]. split; [reflexivity|].
  split; [reflexivity|discriminate].
Qed.

(** The teacher books 09:00 for her student with ["price": null]. *)
Lemma null_price_escapes_at_school :
  snd (get_lesson_data sample_strptime sample_hours sample_places sample_int school 500
                       (lesson_request_price "09:00" 20 JNull) as_teacher None)
  = Raised TypeError.
Proof.
  apply (null_price_escapes sample_strptime sample_hours sample_places sample_int school 500
           (lesson_request_price "09:00" 20 JNull) as_teacher None tamar shai 900).
  - split; reflexivity.
  - repeat split. intros _. lia.
  - reflexivity.
  - reflexivity.
Defined.

(** The teacher books 09:00 with the price 12.7, which becomes 12, and with
    an infinite price. *)
Lemma float_price_converted_witness :
  (exists d,
     snd (get_lesson_data sample_strptime sample_hours sample_places sample_int
            school 500
            (lesson_request_price "09:00" 20
               (JFloat (S754_finite false 3574732204225331 (-48))))
            as_teacher None) = Ok d
     /\ LessonData.price d = Some 12)
  /\ snd (get_lesson_data sample_strptime sample_hours sample_places sample_int
            school 500
            (lesson_request_price "09:00" 20 (JFloat (S754_infinity false)))
            as_teacher None)
     = Raised OverflowError.
Proof.
  split.
  - apply (float_price_converted sample_strptime sample_hours sample_places sample_int
             school 500
             (lesson_request_price "09:00" 20
                (JFloat (S754_finite false 3574732204225331 (-48))))
             as_teacher None tamar shai 900
             (S754_finite false 3574732204225331 (-48))).
    + split; reflexivity.
    + repeat split. intros _. lia.
    + reflexivity.
    + reflexivity.
  - apply (float_price_converted sample_strptime sample_hours sample_places sample_int
             school 500
             (lesson_request_price "09:00" 20 (JFloat (S754_infinity false)))
             as_teacher None tamar shai 900 (S754_infinity false)).
    + split; reflexivity.
    + repeat split. intros _. lia.
    + reflexivity.
    + reflexivity.
Defined.

(** The teacher books 09:00 with the price "a lot", which [int] rejects,
    and with the price 150. *)
Lemma unparsable_price_becomes_none_witness :
  (exists d,
     snd (get_lesson_data sample_strptime sample_hours sample_places sample_int
                          school 500
                          (lesson_request_price "09:00" 20 (JStr "a lot")) as_teacher
                          None) = Ok d
     /\ LessonData.price d = None)
  /\ parse_price sample_int (lesson_request_price "09:00" 20 (JNum 150))
     = Ok (Some 150).
Proof.
  split.
  - destruct (proj1 (unparsable_price_becomes_none sample_strptime sample_hours
                       sample_places sample_int school 500
                       (lesson_request_price "09:00" 20 (JStr "a lot")) as_teacher
                       None eq_refl))
      as (_ & Hnone & _).
    + right. exists "a lot". split; reflexivity.
    + eexists. split; [reflexivity|]. apply Hnone. reflexivity.
  - exact (proj1 (proj2 (unparsable_price_becomes_none sample_strptime sample_hours
                           sample_places sample_int school 500
                           (lesson_request_price "09:00" 20 (JNum 150)) as_teacher
                           None eq_refl) 150 eq_refl)).
Defined.

(** C9 fails as stated: a price given as the JSON integer 150 is no
    decimal-integer string, and it is kept as the price, not replaced by
    [None]. *)
Lemma price_not_a_string_counterexample :
  lesson_request_price "09:00" 20 (JNum 150) !! "price" = Some (JNum 150)
  /\ exists d,
       snd (get_lesson_data sample_strptime sample_hours sample_places sample_int
                            school 500
                            (lesson_request_price "09:00" 20 (JNum 150)) as_teacher
                            None)
       = Ok d
       /\ LessonData.price d = Some 150 /\ LessonData.price d <> None.
Proof.
  split; [reflexivity|].
  eexists. split; [reflexivity|]. split; [reflexivity|discriminate].
Qed.

(** A user without a role asks for 09:00; the teacher and the student do
    not run into an unassigned local. *)
Lemma unbound_local_only_without_role_witness :
  get_lesson_data sample_strptime sample_hours sample_places sample_int school 500
                  (lesson_request "09:00" 20) as_guest None
  = (places school, Raised UnboundLocalError)
  /\ snd (get_lesson_data sample_strptime sample_hours sample_places sample_int school 500
                          (lesson_request "09:00" 20) as_teacher None)
     <> Raised UnboundLocalError
  /\ snd (get_lesson_data sample_strptime sample_hours sample_places sample_int school 500
                          (lesson_request "09:00" 20) as_student None)
     <> Raised UnboundLocalError.
Proof.
  split; [|split].
  - apply (proj2 (unbound_local_only_without_role sample_strptime sample_hours
                    sample_places sample_int school 500
                    (lesson_request "09:00" 20) as_guest None)
             eq_refl eq_refl 900 school_accepts_nine).
  - apply (proj1 (unbound_local_only_without_role sample_strptime sample_hours
                    sample_places sample_int school 500
                    (lesson_request "09:00" 20) as_teacher
                    None)).
    right. simpl. eauto.
  - apply (proj1 (unbound_local_only_without_role sample_strptime sample_hours
                    sample_places sample_int school 500
                    (lesson_request "09:00" 20) as_student
                    None)).
    left. simpl. eauto.
Defined.

(** C10 fails as stated: a user without a role sends a date before the
    current time and gets the [RouteError] "Date is not valid."; evaluation
    never reaches the unassigned local. *)
Lemma no_role_past_date_counterexample :
  User.student as_guest = None /\ User.teacher as_guest = None
  /\ snd (get_lesson_data sample_strptime sample_hours sample_places sample_int school 500
                          (lesson_request "01:00" 20) as_guest None)
     = RouteError "Date is not valid." 400
  /\ snd (get_lesson_data sample_strptime sample_hours sample_places sample_int school 500
                          (lesson_request "01:00" 20) as_guest None)
     <> Raised UnboundLocalError.
Proof.
  split; [reflexivity|]. split; [reflexivity|].
  split; [reflexivity|discriminate].
Qed.


(** * Further properties of the blueprint *)

Local Open Scope list_scope.

(** ** Viewing a lesson *)

(** X1: the GET on one lesson answers with the row exactly when the row is
    stored under the id and the user is its student or its teacher; nobody
    else is ever shown a lesson. *)
Theorem lesson_shown_to_parties_only (db : DB) (current_user : User.t)
    (lesson_id : Z) (l : Lesson.t) :
  lesson db current_user lesson_id = Ok l
  <-> lessons db !! lesson_id = Some l /\ party_of current_user l.
Proof.
  unfold lesson, Lesson_get_by_id, party_of. split.
  - destruct (lessons db !! lesson_id) as [l0|]; [|discriminate].
    destruct (Lesson.student l0) as [s|] eqn:Es; [|discriminate].
    destruct (negb _) eqn:E; [discriminate|]. intros [= <-].
    split; [done|]. exists s. split; [done|].
    apply negb_false_iff, orb_true_iff in E. rewrite !Z.eqb_eq in E. exact E.
  - intros (-> & s & -> & Hid).
    assert (((UserRow.id (User.row current_user) =? UserRow.id (Student.user s))
             || (UserRow.id (User.row current_user)
                 =? UserRow.id (Teacher.user (Lesson.teacher l)))) = true) as ->.
    { apply orb_true_iff. rewrite !Z.eqb_eq. exact Hid. }
    reflexivity.
Qed.

(** ** Requests that are repeated *)

Lemma update_row_twice i l l' db :
  update_row i l (update_row i l' db) = update_row i l db.
Proof.
  unfold update_row, set_lessons; simpl. by rewrite insert_insert_eq.
Qed.

(** X2: approving a lesson a second time answers as the first time did and
    leaves the store as the first approval left it. *)
Theorem approve_lesson_again (db : DB) (teacher : Teacher.t) (lesson_id : Z) :
  approve_lesson (store (approve_lesson db teacher lesson_id)) teacher lesson_id
  = approve_lesson db teacher lesson_id.
Proof.
  unfold approve_lesson at 2 3.
  destruct (filter_by_id _ _ _) as [l|] eqn:E.
  2:{ simpl. unfold approve_lesson. by rewrite E. }
  destruct (first_row _ _) as [kr|] eqn:Eq.
  { simpl. unfold approve_lesson. by rewrite E, Eq. }
  apply filter_by_id_Some in E as [Hl Hmine].
  assert (approve_lesson (update_row lesson_id (Lesson.set_is_approved true l) db)
                         teacher lesson_id
          = mkOutcome (update_row lesson_id (Lesson.set_is_approved true l) db)
              (match Lesson.student l with
               | Some s => notify_user (Student.user s) "Lesson Approved"
               | None => []
               end)
              (match Lesson.student l with
               | Some s => Ok "Lesson approved."
               | None => Raised AttributeError
               end)) as Hagain.
  { unfold approve_lesson.
    rewrite (proj2 (filter_by_id_Some (of_teacher teacher) lesson_id
                      (lessons (update_row lesson_id (Lesson.set_is_approved true l) db))
                      (Lesson.set_is_approved true l))).
    2:{ split; [apply lookup_insert_eq|exact Hmine]. }
    assert (first_row (same_time lesson_id (Lesson.set_is_approved true l))
              (lessons (update_row lesson_id (Lesson.set_is_approved true l) db))
            = None) as ->.
    { apply first_row_None. intros k o Hk. simpl in Hk.
      rewrite lookup_insert in Hk. case_decide.
      - subst k. unfold same_time. rewrite Z.eqb_refl. simpl.
        by rewrite andb_false_r.
      - rewrite first_row_None in Eq. exact (Eq k o Hk). }
    simpl. rewrite update_row_twice. by destruct (Lesson.student l). }
  cbv zeta. change (Lesson.student (Lesson.set_is_approved true l))
    with (Lesson.student l).
  destruct (Lesson.student l) as [s|] eqn:Es; cbn [store]; exact Hagain.
Qed.

(** X3: deleting a lesson a second time succeeds as the first time did,
    notifies again and leaves the store as the first deletion left it: a
    deleted lesson is still found among the lessons of its user. *)
Theorem delete_lesson_again (db : DB) (current_user : User.t) (lesson_id : Z) :
  delete_lesson (store (delete_lesson db current_user lesson_id))
                current_user lesson_id
  = delete_lesson db current_user lesson_id.
Proof.
  unfold delete_lesson at 2 3.
  destruct (user_lessons current_user) as [e|mine] eqn:Eu.
  { simpl. unfold delete_lesson. by rewrite Eu. }
  destruct (filter_by_id _ _ _) as [l|] eqn:E.
  2:{ simpl. unfold delete_lesson. by rewrite Eu, E. }
  apply filter_by_id_Some in E as [Hl Hmine].
  assert (mine (Lesson.set_deleted true l) = true) as Hmine'.
  { unfold user_lessons in Eu.
    destruct (User.teacher current_user); [by injection Eu as <-|].
    destruct (User.student current_user); [by injection Eu as <-|discriminate]. }
  set (db1 := update_row lesson_id (Lesson.set_deleted true l) db).
  assert (delete_lesson db1 current_user lesson_id
          = if same_user (User.row current_user) (Teacher.user (Lesson.teacher l))
            then match Lesson.student l with
                 | Some s => mkOutcome db1 (notify_user (Student.user s) "Lesson Deleted")
                                       (Ok "Lesson deleted successfully.")
                 | None => mkOutcome db1 [] (Raised AttributeError)
                 end
            else mkOutcome db1
                   (notify_user (Teacher.user (Lesson.teacher l)) "Lesson Deleted")
                   (Ok "Lesson deleted successfully.")) as Hagain.
  { unfold delete_lesson. rewrite Eu.
    rewrite (proj2 (filter_by_id_Some mine lesson_id (lessons db1)
                      (Lesson.set_deleted true l))).
    2:{ split; [apply lookup_insert_eq|exact Hmine']. }
    unfold db1. rewrite update_row_twice. simpl.
    destruct (same_user _ _); [destruct (Lesson.student l)|]; reflexivity. }
  cbv zeta. fold db1.
  change (Lesson.teacher (Lesson.set_deleted true l)) with (Lesson.teacher l).
  change (Lesson.student (Lesson.set_deleted true l)) with (Lesson.student l).
  destruct (same_user _ _); [destruct (Lesson.student l)|]; cbn [store];
    exact Hagain.
Qed.

(** ** Deleted lessons *)

Lemma approve_lesson_conflict db teacher lesson_id l :
  lessons db !! lesson_id = Some l -> of_teacher teacher l = true ->
  conflicting (lessons db) lesson_id l ->
  approve_lesson db teacher lesson_id
  = mkOutcome db [] (RouteError "There is another lesson at the same time." 400).
Proof.
  intros Hl Hmine Hc. unfold approve_lesson.
  rewrite (proj2 (filter_by_id_Some _ _ _ _) (conj Hl Hmine)).
  apply same_time_query in Hc as [kr Hc]. by rewrite Hc.
Qed.

(** X4: deleting an approved lesson does not free its date: the conflict
    query of [approve_lesson] does not look at the deleted flag, so another
    lesson at that date still cannot be approved. *)
Theorem deleted_lesson_keeps_its_slot (db : DB) (current_user : User.t)
    (teacher : Teacher.t) (k j : Z) (o l : Lesson.t) :
  lessons db !! k = Some o -> Lesson.is_approved o = true ->
  lessons db !! j = Some l -> of_teacher teacher l = true ->
  k <> j -> Lesson.date o = Lesson.date l ->
  approve_lesson (store (delete_lesson db current_user k)) teacher j
  = mkOutcome (store (delete_lesson db current_user k)) []
              (RouteError "There is another lesson at the same time." 400).
Proof.
  intros Hk Hap Hj Hmine Hne Hdate.
  destruct (delete_lesson_store db current_user k)
    as [->|(mine & o' & _ & Hk' & _ & ->)].
  - apply (approve_lesson_conflict db teacher j l Hj Hmine).
    exists k, o. done.
  - assert (o' = o) as -> by congruence.
    apply (approve_lesson_conflict _ teacher j l).
    + unfold update_row, set_lessons; simpl. by rewrite lookup_insert_ne.
    + exact Hmine.
    + exists k, (Lesson.set_deleted true o). split; [|done].
      unfold update_row, set_lessons; simpl. apply lookup_insert_eq.
Qed.

Lemma delete_lesson_store_of db current_user lesson_id l :
  lessons db !! lesson_id = Some l ->
  belongs_to current_user l ->
  store (delete_lesson db current_user lesson_id)
  = update_row lesson_id (Lesson.set_deleted true l) db.
Proof.
  intros Hl Hmine.
  destruct (belongs_to_user_lessons _ _ Hmine) as (mine & Hu & Hm).
  unfold delete_lesson. rewrite Hu.
  rewrite (proj2 (filter_by_id_Some _ _ _ _) (conj Hl Hm)).
  destruct (same_user _ _); [destruct (Lesson.student _)|]; reflexivity.
Qed.

(** X5: a lesson that one of its parties has deleted is still shown to that
    party, with the deleted flag set. *)
Theorem deleted_lesson_still_shown (db : DB) (current_user : User.t)
    (lesson_id : Z) (l : Lesson.t) :
  lessons db !! lesson_id = Some l ->
  belongs_to current_user l ->
  party_of current_user l ->
  lesson (store (delete_lesson db current_user lesson_id)) current_user lesson_id
  = Ok (Lesson.set_deleted true l).
Proof.
  intros Hl Hmine (s & Hs & Hid).
  rewrite (delete_lesson_store_of db current_user lesson_id l Hl Hmine).
  unfold lesson, Lesson_get_by_id, update_row, set_lessons; simpl.
  rewrite lookup_insert_eq. simpl. rewrite Hs.
  assert (((UserRow.id (User.row current_user) =? UserRow.id (Student.user s))
           || (UserRow.id (User.row current_user)
               =? UserRow.id (Teacher.user (Lesson.teacher l)))) = true) as ->.
  { apply orb_true_iff. rewrite !Z.eqb_eq. exact Hid. }
  reflexivity.
Qed.

(** ** More on lesson data *)

Section MoreLessonData.

Variable strptime : string -> option datetime.
Variable available_hours :
  DB -> datetime -> Teacher.t -> datetime -> list (datetime * string).
Variable Place_create_or_find :
  list Place.t -> json -> PlaceType.t -> Student.t -> list Place.t * option Place.t.
Variable int_of_str : string -> option Z.
Variable update_only_changed_fields : LessonData.t -> Lesson.t -> Lesson.t.

Variable visit_other_id : DB -> string -> json -> Appended -> result Appended.

(** A [RouteError] of [get_lesson_data] is raised before any place is
    resolved. *)
Lemma get_lesson_data_route_error db now data user lesson m c :
  snd (get_lesson_data strptime available_hours Place_create_or_find int_of_str
                       db now data user lesson) = RouteError m c ->
  get_lesson_data strptime available_hours Place_create_or_find int_of_str
                  db now data user lesson
  = (places db, RouteError m c).
Proof.
  unfold get_lesson_data.
  destruct (negb (truthy _)); [by intros [= <- <-]|].
  destruct (parse_date _ _) as [date|m' c'|e]; [|by intros [= <- <-]|discriminate].
  destruct (_ && _); [by intros [= <- <-]|].
  destruct (role_branch available_hours _ _ _ _ _ _) as [locals|m' c'|e];
    [|by intros [= <- <-]|discriminate].
  intros H.
  by destruct (lesson_dict_no_route_error Place_create_or_find int_of_str
                 _ _ _ _ _ _ _ H).
Qed.

(** X6: a request that is answered with a [RouteError] has changed nothing
    in the store and has notified nobody, whichever of the five writing
    endpoints it went to. *)
Theorem route_error_changes_nothing db now user teacher lesson_id data m c :
  (response (new_lesson strptime available_hours Place_create_or_find int_of_str
                        db now user data) = RouteError m c ->
   new_lesson strptime available_hours Place_create_or_find int_of_str db now user data
   = mkOutcome db [] (RouteError m c))
  /\ (response (update_lesson strptime available_hours Place_create_or_find int_of_str
    update_only_changed_fields
                              db now user lesson_id data) = RouteError m c ->
      update_lesson strptime available_hours Place_create_or_find int_of_str
    update_only_changed_fields
                    db now user lesson_id data
      = mkOutcome db [] (RouteError m c))
  /\ (response (delete_lesson db user lesson_id) = RouteError m c ->
      delete_lesson db user lesson_id = mkOutcome db [] (RouteError m c))
  /\ (response (approve_lesson db teacher lesson_id) = RouteError m c ->
      approve_lesson db teacher lesson_id = mkOutcome db [] (RouteError m c))
  /\ (response (update_topics visit_other_id db lesson_id data) = RouteError m c ->
      update_topics visit_other_id db lesson_id data = mkOutcome db [] (RouteError m c)).
Proof.
  split; [|split; [|split; [|split]]].
  - unfold new_lesson. destruct (negb (truthy _)); [by intros [= <- <-]|].
    destruct (get_lesson_data _ _ _ _ _ _ _ _) as [ps r] eqn:E.
    destruct r as [d|m' c'|e]; cbn [response]; cbv zeta.
    + destruct (Lesson_create _ _ _) as [db2 [i l]].
      destruct (Lesson.student l); discriminate.
    + intros [= -> ->].
      pose proof (get_lesson_data_route_error db now data user None m c) as Hps.
      rewrite E in Hps. specialize (Hps eq_refl). injection Hps as ->.
      by destruct db.
    + discriminate.
  - unfold update_lesson. destruct (user_lessons user); [discriminate|].
    destruct (filter_by_id _ _ _) as [l0|]; [|by intros [= <- <-]].
    destruct (get_lesson_data _ _ _ _ _ _ _ _) as [ps r] eqn:E.
    destruct r as [d|m' c'|e]; cbn [response]; cbv zeta.
    + destruct (Lesson.student _); discriminate.
    + intros [= -> ->].
      pose proof (get_lesson_data_route_error db now data user (Some l0) m c) as Hps.
      rewrite E in Hps. specialize (Hps eq_refl). injection Hps as ->.
      by destruct db.
    + discriminate.
  - unfold delete_lesson. destruct (user_lessons user); [discriminate|].
    destruct (filter_by_id _ _ _); [|by intros [= <- <-]].
    cbv zeta. destruct (same_user _ _); [destruct (Lesson.student _)|]; discriminate.
  - unfold approve_lesson. destruct (filter_by_id _ _ _); [|by intros [= <- <-]].
    destruct (first_row _ _); [by intros [= <- <-]|].
    cbv zeta. destruct (Lesson.student _); discriminate.
  - unfold update_topics. destruct (Lesson_get_by_id _ _); [|by intros [= <- <-]].
    destruct (negb _); [by intros [= <- <-]|].
    destruct (py_items _); [discriminate|].
    destruct (append_buckets _ _ _); [discriminate|by intros [= <- <-]|discriminate].
Qed.

(** X7: a user without a student role is never checked against the
    available hours: whatever the teacher's hours are, [get_lesson_data]
    answers the same. *)
Theorem no_availability_check_without_student_role
    (hours hours' : DB -> datetime -> Teacher.t -> datetime -> list (datetime * string))
    db now data user lesson :
  User.student user = None ->
  get_lesson_data strptime hours Place_create_or_find int_of_str db now data user lesson
  = get_lesson_data strptime hours' Place_create_or_find int_of_str db now data user lesson.
Proof.
  intros Hs. unfold get_lesson_data, role_branch. by rewrite Hs.
Qed.

Lemma role_branch_student_bound db now data user lesson date s locals :
  student_initiated user s ->
  role_branch available_hours db now data user lesson date = Ok locals ->
  locals = mkLocals (Some (JNum (Teacher.lesson_duration (Student.teacher s))))
                    (Some s) (Some (Student.teacher s)).
Proof.
  intros Hs. unfold role_branch. rewrite Hs.
  destruct (next _); [by intros [= <-]|].
  destruct (_ || _); [discriminate|by intros [= <-]].
Qed.

(** X8: in the dict of a request of a student the student is the requester,
    the teacher is the requester's teacher and the duration is that
    teacher's [lesson_duration], whatever the request says under
    "student_id" and "duration". *)
Theorem student_request_fixed_fields db now data user lesson s d :
  student_initiated user s ->
  snd (get_lesson_data strptime available_hours Place_create_or_find int_of_str
                       db now data user lesson) = Ok d ->
  LessonData.student d = s
  /\ LessonData.teacher d = Student.teacher s
  /\ LessonData.duration d = JNum (Teacher.lesson_duration (Student.teacher s)).
Proof.
  intros Hs. unfold get_lesson_data.
  destruct (negb (truthy _)); [discriminate|].
  destruct (parse_date _ _) as [date|m c|e]; [|discriminate|discriminate].
  destruct (_ && _); [discriminate|].
  destruct (role_branch available_hours _ _ _ _ _ _) as [locals|m c|e] eqn:E;
    [|discriminate|discriminate].
  rewrite (role_branch_student_bound _ _ _ _ _ _ _ _ Hs E). intros Hd.
  destruct (lesson_dict_bound_result Place_create_or_find int_of_str
              (places db) data user date
              (JNum (Teacher.lesson_duration (Student.teacher s))) s
              (Student.teacher s)) as (_ & Hany & _).
  destruct (Hany d Hd) as (_ & Hst & Hte & Hdu & _). done.
Qed.

(** X9: a student who asks for a date that passes the date validation and
    is the start of an open slot gets the dict for that date whenever the
    price converts; [new_lesson] then stores the lesson, approved only if
    the user is a teacher as well. *)
Theorem student_open_slot_accepted db now data user lesson s date h price :
  student_initiated user s ->
  date_accepted strptime now data lesson date ->
  h ∈ available_hours db now (Student.teacher s) date -> fst h = date ->
  parse_price int_of_str data = Ok price ->
  (exists d,
     snd (get_lesson_data strptime available_hours Place_create_or_find int_of_str
                          db now data user lesson) = Ok d
     /\ LessonData.date d = date /\ LessonData.price d = price)
  /\ (lesson = None ->
      exists l,
        lessons (store (new_lesson strptime available_hours Place_create_or_find int_of_str
                                   db now user data))
          !! fresh_id (lessons db) = Some l
        /\ Lesson.date l = date /\ Lesson.student l = Some s
        /\ Lesson.is_approved l = some_row (User.teacher user)).
Proof.
  intros Hs Hacc Hin Hh Hprice.
  pose proof (get_lesson_data_accepted strptime available_hours Place_create_or_find
                int_of_str db now data user lesson date Hacc) as Hget.
  rewrite (role_branch_student_open available_hours db now data user lesson date s h
             Hs Hin Hh) in Hget.
  destruct (lesson_dict_bound_result Place_create_or_find int_of_str
              (places db) data user date
              (JNum (Teacher.lesson_duration (Student.teacher s))) s
              (Student.teacher s)) as (Hok & _).
  destruct (Hok price Hprice) as (d & Hd & Hdd & Hds & _ & _ & Hdp & Hda).
  rewrite <- Hget in Hd.
  split; [eauto|].
  intros ->.
  rewrite (new_lesson_created strptime available_hours Place_create_or_find int_of_str
             db now user data d (proj1 Hacc) Hd).
  eexists. split; [apply lookup_insert_eq|]. simpl. by rewrite Hdd, Hds, Hda.
Qed.

(** X10: a request without a usable date field (missing, [null], empty
    string, zero, [false]) is refused by every path: [get_lesson_data]
    fails with "Date is not valid.", also when a lesson is edited, so an
    update cannot leave the date out; [new_lesson] asks for the date in its
    own words.  Nothing is stored. *)
Theorem date_field_required db now data user :
  truthy (dict_get data "date") = false ->
  (forall lesson,
     get_lesson_data strptime available_hours Place_create_or_find int_of_str
                     db now data user lesson
     = (places db, RouteError "Date is not valid." 400))
  /\ new_lesson strptime available_hours Place_create_or_find int_of_str db now user data
     = mkOutcome db [] (RouteError "Please insert the date of the lesson." 400)
  /\ (forall lesson_id l,
        lessons db !! lesson_id = Some l -> belongs_to user l ->
        update_lesson strptime available_hours Place_create_or_find int_of_str
    update_only_changed_fields
                      db now user lesson_id data
        = mkOutcome db [] (RouteError "Date is not valid." 400)).
Proof.
  intros Ht.
  assert (forall lesson,
             get_lesson_data strptime available_hours Place_create_or_find int_of_str
                             db now data user lesson
             = (places db, RouteError "Date is not valid." 400)) as Hget.
  { intros lesson. unfold get_lesson_data. by rewrite Ht. }
  split; [exact Hget|]. split.
  - unfold new_lesson. by rewrite Ht.
  - intros lesson_id l Hl Hmine.
    by apply (update_lesson_fails strptime available_hours Place_create_or_find int_of_str
                update_only_changed_fields
                db now user lesson_id data l).
Qed.

(** X11: a date that is present but does not match the date format is no
    validation error: the [ValueError] of [strptime] escapes
    [get_lesson_data] and [new_lesson], and a date that is no string at all
    escapes as a [TypeError].  Neither stores anything. *)
Theorem malformed_date_escapes db now data user lesson :
  truthy (dict_get data "date") = true ->
  (forall str, dict_get data "date" = JStr str -> strptime str = None ->
     get_lesson_data strptime available_hours Place_create_or_find int_of_str
                     db now data user lesson
     = (places db, Raised ValueError)
     /\ new_lesson strptime available_hours Place_create_or_find int_of_str db now user data
        = mkOutcome db [] (Raised ValueError))
  /\ ((forall str, dict_get data "date" <> JStr str) ->
      get_lesson_data strptime available_hours Place_create_or_find int_of_str
                      db now data user lesson
      = (places db, Raised TypeError)
      /\ new_lesson strptime available_hours Place_create_or_find int_of_str
                    db now user data
         = mkOutcome db [] (Raised TypeError)).
Proof.
  intros Ht. split.
  - intros str Hstr Hnone.
    unfold new_lesson, get_lesson_data. rewrite Ht. simpl.
    unfold parse_date. rewrite Hstr, Hnone. simpl. split; [done|by destruct db].
  - intros Hno.
    assert (parse_date strptime (dict_get data "date") = Raised TypeError) as Hp.
    { unfold parse_date. destruct (dict_get data "date") as [| | |str| | |]; try done.
      by destruct (Hno str). }
    unfold new_lesson, get_lesson_data. rewrite Ht, Hp. simpl.
    split; [done|by destruct db].
Qed.

End MoreLessonData.


(** ** More on topic submission *)

Section MoreTopicSubmission.

Variable visit_other_id : DB -> string -> json -> Appended -> result Appended.



(** What a submission as in C5 stores. *)
Lemma update_topics_stores db lesson_id data l buckets :
  lessons db !! lesson_id = Some l ->
  is_Some (Lesson.student l) ->
  data !! "topics" = Some (submission buckets) ->
  (forall i, i ∈ snd <$> submitted buckets -> is_Some (Topic_get_by_id db i)) ->
  update_topics visit_other_id db lesson_id data
  = mkOutcome
      (update_row lesson_id
         (Lesson.set_topics
            (Lesson.topics l ++ (association <$> first_occurrences (submitted buckets)))
            l) db) []
      (Ok (Lesson.set_topics
             (Lesson.topics l ++ (association <$> first_occurrences (submitted buckets)))
             l)).
Proof.
  intros Hl Hs Hdata Hall.
  rewrite (update_topics_loops visit_other_id db lesson_id data l buckets Hl Hs Hdata).
  pose proof (append_submitted_all_exist visit_other_id db _ (Lesson.topics l) [] Hall)
    as Happ.
  change (JNum <$> []) with (@nil json) in Happ. rewrite Happ.
  cbn [lesson_topics]. by rewrite filter_unseen_nil.
Qed.

(** X14: submissions are not compared with what an earlier submission
    stored: sending the same valid submission twice stores its
    associations twice. *)
Theorem update_topics_twice_duplicates (db : DB) (lesson_id : Z)
    (data : gmap string json) (l : Lesson.t) (buckets : list (string * list Z)) :
  lessons db !! lesson_id = Some l ->
  is_Some (Lesson.student l) ->
  data !! "topics" = Some (submission buckets) ->
  (forall i, i ∈ snd <$> submitted buckets -> is_Some (Topic_get_by_id db i)) ->
  let new := association <$> first_occurrences (submitted buckets) in
  response (update_topics visit_other_id
              (store (update_topics visit_other_id db lesson_id data)) lesson_id data)
  = Ok (Lesson.set_topics ((Lesson.topics l ++ new) ++ new) l).
Proof.
  intros Hl Hs Hdata Hall new.
  rewrite (update_topics_stores db lesson_id data l buckets Hl Hs Hdata Hall).
  cbn [store]. fold new.
  rewrite (update_topics_stores _ lesson_id data
             (Lesson.set_topics (Lesson.topics l ++ new) l) buckets).
  - reflexivity.
  - unfold update_row, set_lessons; simpl. apply lookup_insert_eq.
  - exact Hs.
  - exact Hdata.
  - exact Hall.
Qed.

End MoreTopicSubmission.

(** ** More on topic progress *)

Section MoreTopicProgress.

Variable lesson_number : DB -> Z -> Lesson.t -> Z.
Variable visit_other_id : DB -> string -> json -> Appended -> result Appended.


(** X16: the two lists of the topics of a lesson account for every
    association of the lesson once: [progress] followed by [finished] is
    the list of the topic ids of its associations, up to order. *)
Theorem topics_lists_partition (db : DB) (lesson_id : Z) (student_id : option Z)
    (l : Lesson.t) (r : TopicsResponse) :
  lessons db !! lesson_id = Some l ->
  lesson_id <> 0 ->
  topics lesson_number db lesson_id student_id = Ok r ->
  progress r ++ finished r ≡ₚ LessonTopic.topic_id <$> Lesson.topics l.
Proof.
  intros Hl Hid. unfold topics, Lesson_get_by_id.
  assert ((lesson_id =? 0) = false) as -> by by apply Z.eqb_neq.
  rewrite Hl. simpl.
  destruct (Lesson.student l); [|discriminate].
  destruct (forallb _ _); [|discriminate].
  intros [= <-]. cbn [progress finished]. unfold topic_ids_with.
  rewrite <- fmap_app. apply fmap_Permutation.
  rewrite <- (filter_app_complement
                (fun lt => LessonTopic.is_finished lt = false) (Lesson.topics l))
    at 3.
  f_equiv. apply reflexive_eq, list_filter_iff.
  intros lt. destruct (LessonTopic.is_finished lt); split; congruence.
Qed.

(** X17: for a lesson yet to be created (id 0 and a student that exists) the
    answer lists nothing in progress and nothing finished, and offers
    exactly the topics in progress of the student or fitting the number of
    the next lesson that the student has not finished. *)
Theorem topics_of_prospective_lesson (db : DB) (k : Z) (s : Student.t) :
  find (fun s' => Student.id s' =? k) (students db) = Some s ->
  exists r,
    topics lesson_number db 0 (Some k) = Ok r
    /\ progress r = [] /\ finished r = []
    /\ (forall t,
          t ∈ available r
          <-> (t ∈ Student_topics db s false
               \/ t ∈ Topic_for_lesson db (new_lesson_number db s))
              /\ t ∉ Student_topics db s true).
Proof.
  intros Hs. unfold topics. rewrite Hs. simpl.
  eexists. split; [reflexivity|]. simpl. split; [done|]. split; [done|].
  intros t. rewrite elem_of_difference, elem_of_union, elem_of_list_to_set. done.
Qed.

End MoreTopicProgress.

(** ** The further properties at work in the small school *)

Lemma approve_lesson_preserves_witness :
  one_approved_per_slot (lessons (store (approve_lesson school tamar 1))).
Proof.
  exact (approve_lesson_preserves school tamar 1 school_one_approved_per_slot).
Defined.

Lemma delete_lesson_preserves_witness :
  one_approved_per_slot (lessons (store (delete_lesson school as_teacher 1))).
Proof.
  exact (delete_lesson_preserves school as_teacher 1 school_one_approved_per_slot).
Defined.

Lemma new_lesson_without_teacher_preserves_witness :
  one_approved_per_slot
    (lessons (store (new_lesson sample_strptime morning_hours sample_places sample_int
                                school 500 as_student (lesson_request "09:00" 20)))).
Proof.
  exact (new_lesson_without_teacher_preserves sample_strptime morning_hours
           sample_places sample_int school 500 as_student (lesson_request "09:00" 20)
           eq_refl school_one_approved_per_slot).
Defined.

(** The teacher deletes the approved lesson at 09:00; the pending lesson at
    09:00 still cannot be approved. *)
Lemma deleted_lesson_keeps_its_slot_witness :
  response (approve_lesson (store (delete_lesson school_pending as_teacher 1)) tamar 2)
  = RouteError "There is another lesson at the same time." 400.
Proof.
  rewrite (deleted_lesson_keeps_its_slot school_pending as_teacher tamar 1 2
             (lesson_at 900 true []) (lesson_at 900 false [])
             eq_refl eq_refl eq_refl eq_refl ltac:(lia) eq_refl).
  reflexivity.
Defined.

Lemma tamar_party_of_her_lesson : party_of as_teacher (lesson_at 900 true []).
Proof. exists shai. split; [reflexivity|]. right. reflexivity. Defined.

(** The teacher deletes the lesson at 09:00 and looks at it. *)
Lemma deleted_lesson_still_shown_witness :
  lesson (store (delete_lesson school as_teacher 1)) as_teacher 1
  = Ok (Lesson.set_deleted true (lesson_at 900 true [])).
Proof.
  exact (deleted_lesson_still_shown school as_teacher 1 (lesson_at 900 true [])
           eq_refl eq_refl tamar_party_of_her_lesson).
Defined.

(** Approving an unknown lesson and submitting topics to it. *)
Lemma route_error_changes_nothing_witness :
  approve_lesson school tamar 5
  = mkOutcome school [] (RouteError "Lesson does not exist" 404)
  /\ update_topics sample_other_id school 5 (topics_request [("finished", [7])])
     = mkOutcome school [] (RouteError "Lesson does not exist." 400).
Proof.
  split.
  - apply (proj1 (proj2 (proj2 (proj2
             (route_error_changes_nothing sample_strptime sample_hours sample_places
                sample_int sample_update sample_other_id
                school 500 as_teacher tamar 5 (lesson_request "09:00" 20)
                "Lesson does not exist" 404))))).
    reflexivity.
  - apply (proj2 (proj2 (proj2 (proj2
             (route_error_changes_nothing sample_strptime sample_hours sample_places
                sample_int sample_update sample_other_id
                school 500 as_teacher tamar 5 (topics_request [("finished", [7])])
                "Lesson does not exist." 400))))).
    reflexivity.
Defined.

(** The teacher books 11:00 whether or not it is an open slot. *)
Lemma no_availability_check_without_student_role_witness :
  get_lesson_data sample_strptime sample_hours sample_places sample_int school 500
                  (lesson_request "11:00" 20) as_teacher None
  = get_lesson_data sample_strptime morning_hours sample_places sample_int school 500
                    (lesson_request "11:00" 20) as_teacher None.
Proof.
  exact (no_availability_check_without_student_role sample_strptime sample_places sample_int
           sample_hours morning_hours school 500 (lesson_request "11:00" 20)
           as_teacher None eq_refl).
Defined.

(** The student names student 99 and 90 minutes; the dict has the student
    himself and the 40 minutes of his teacher. *)
Lemma student_request_fixed_fields_witness :
  exists d,
    snd (get_lesson_data sample_strptime morning_hours sample_places sample_int school 500
                         overreaching_request as_student None) = Ok d
    /\ LessonData.student d = shai
    /\ LessonData.teacher d = tamar
    /\ LessonData.duration d = JNum 40.
Proof.
  eexists. split; [reflexivity|].
  exact (student_request_fixed_fields sample_strptime morning_hours sample_places sample_int
           school 500 overreaching_request as_student None shai _ eq_refl eq_refl).
Defined.

Lemma school_accepts_eleven lesson :
  date_accepted sample_strptime 500 (lesson_request "11:00" 20) lesson 1100.
Proof. repeat split. intros _. lia. Defined.

(** The student asks for the open slot at 11:00. *)
Lemma student_open_slot_accepted_witness :
  exists l,
    lessons (store (new_lesson sample_strptime morning_hours sample_places sample_int
                               school 500 as_student (lesson_request "11:00" 20)))
      !! fresh_id (lessons school) = Some l
    /\ Lesson.date l = 1100 /\ Lesson.student l = Some shai
    /\ Lesson.is_approved l = false.
Proof.
  refine (proj2 (student_open_slot_accepted sample_strptime morning_hours
                   sample_places sample_int
                   school 500 (lesson_request "11:00" 20) as_student None shai 1100
                   (1100, "11:00") None eq_refl (school_accepts_eleven None) _
                   eq_refl eq_refl) eq_refl).
  set_solver.
Defined.

(** A request with an empty body. *)
Lemma date_field_required_witness :
  new_lesson sample_strptime sample_hours sample_places sample_int school 500 as_teacher ∅
  = mkOutcome school [] (RouteError "Please insert the date of the lesson." 400)
  /\ update_lesson sample_strptime sample_hours sample_places sample_int
    sample_update school 500 as_teacher 1 ∅
     = mkOutcome school [] (RouteError "Date is not valid." 400).
Proof.
  assert (truthy (dict_get (∅ : gmap string json) "date") = false) as Hempty
    by reflexivity.
  destruct (date_field_required sample_strptime sample_hours sample_places
              sample_int sample_update school 500 ∅ as_teacher Hempty)
    as (_ & Hnew & Hupdate).
  split; [exact Hnew|].
  exact (Hupdate 1 (lesson_at 900 true []) eq_refl eq_refl).
Defined.

(** A date that is no time of the day, and a date that is a number. *)
Lemma malformed_date_escapes_witness :
  new_lesson sample_strptime sample_hours sample_places sample_int school 500 as_teacher
             (lesson_request "noon" 20)
  = mkOutcome school [] (Raised ValueError)
  /\ new_lesson sample_strptime sample_hours sample_places sample_int school 500 as_teacher
                {[ "date" := JNum 900 ]}
     = mkOutcome school [] (Raised TypeError).
Proof.
  split.
  - exact (proj2 (proj1 (malformed_date_escapes sample_strptime sample_hours
                           sample_places sample_int school 500 (lesson_request "noon" 20)
                           as_teacher None eq_refl) "noon" eq_refl eq_refl)).
  - refine (proj2 (proj2 (malformed_date_escapes sample_strptime sample_hours
                            sample_places sample_int school 500 {[ "date" := JNum 900 ]}
                            as_teacher None eq_refl) _)).
    intros str. discriminate.
Defined.

Lemma mixed_submission_exists :
  forall i, i ∈ snd <$> submitted [("progress", [7]); ("finished", [7; 7])] ->
            is_Some (Topic_get_by_id school i).
Proof.
  intros i Hi. assert (i = 7) as -> by set_solver. simpl. eauto.
Defined.

(** The same submission sent twice. *)
Lemma update_topics_twice_duplicates_witness :
  response (update_topics sample_other_id
              (store (update_topics sample_other_id school 1
                        (topics_request [("progress", [7]); ("finished", [7; 7])])))
              1 (topics_request [("progress", [7]); ("finished", [7; 7])]))
  = Ok (lesson_at 900 true [LessonTopic.mk false 7; LessonTopic.mk false 7]).
Proof.
  assert (is_Some (Lesson.student (lesson_at 900 true []))) as Hs by (simpl; eauto).
  exact (update_topics_twice_duplicates sample_other_id school 1
           (topics_request [("progress", [7]); ("finished", [7; 7])])
           (lesson_at 900 true []) [("progress", [7]); ("finished", [7; 7])]
           eq_refl Hs eq_refl mixed_submission_exists).
Defined.


(** The two lessons with [junctions] finished: the lists of lesson 2. *)
Lemma topics_lists_partition_witness :
  exists r,
    topics sample_number school_topics 2 None = Ok r
    /\ progress r ++ finished r ≡ₚ [7].
Proof.
  eexists. split; [reflexivity|].
  assert (2 <> 0) as Hid by lia.
  exact (topics_lists_partition sample_number school_topics 2 None
           (lesson_at 1000 true [LessonTopic.mk true 7]) _ eq_refl Hid eq_refl).
Defined.

(** The next lesson of the student: nothing listed yet. *)
Lemma topics_of_prospective_lesson_witness :
  exists r,
    topics sample_number school 0 (Some 20) = Ok r
    /\ progress r = [] /\ finished r = [].
Proof.
  destruct (topics_of_prospective_lesson sample_number school 20 shai eq_refl)
    as (r & Hr & Hp & Hf & _).
  exists r. auto.
Defined.
